(** * mineru-mcp: a shallow embedding of [src/index.ts] and [src/server.ts]

    The development follows the two source files:
    - [Js]       the fragments of JavaScript semantics the code relies on
                 (truthiness, [Array.prototype.slice], [join], property
                 lookup on an object literal used as a dictionary);
    - [Format]   the format helpers of [index.ts]
                 ([formatConciseStatus], [formatConciseBatch]);
    - [Client]   [ERROR_MESSAGES], [mineruRequest] and the four tool
                 handlers registered by [createServer];
    - [Server]   the Express routes of [server.ts] and the session map
                 [transports].

    JavaScript numbers are modelled by [Z]: only integral values are
    covered, which is what page counts, limits and offsets are, and sums
    and differences are the exact ones. The arithmetic of the code is
    that of binary64, which is exact as long as arguments and results
    are integers of magnitude at most 2^53 ([Js.exact]); statements about
    arbitrary limits and offsets carry the bounds that keep it so. *)

From stdpp Require Import base gmap strings list pretty functions.

Local Open Scope Z_scope.

(* ===================================================================== *)
(** ** JavaScript fragments *)
(* ===================================================================== *)

Module Js.

(** The line feed used by [lines.join("\n")]. *)
Definition nl : string := String (Ascii.ascii_of_nat 10) EmptyString.

(** [`${n}`] for an integral number. *)
Definition num (n : Z) : string := pretty n.

(** The integers that binary64 numbers represent without gap: a sum or a
    difference of two of them that is again one of them is computed
    exactly. *)
Definition exact (n : Z) : Prop := - 2 ^ 53 <= n <= 2 ^ 53.

(** A string is falsy exactly when it is empty. *)
Definition truthy (s : string) : bool := negb (String.eqb s "").

(** An optional property [p?: string]: absent ([undefined]) or a string;
    used in a condition it is truthy when present and non-empty. *)
Definition truthy_opt (o : option string) : bool :=
  match o with Some s => truthy s | None => false end.

(** [a.join(sep)]. *)
Definition join (sep : string) (a : list string) : string :=
  String.concat sep a.

(** [a.slice(start, end)] on integral arguments: a negative index counts
    from the end of the array, both indices are then clamped to
    [0, a.length], and an empty array results when the end does not
    exceed the start. *)
Definition slice {A} (a : list A) (start end_ : Z) : list A :=
  let len := Z.of_nat (length a) in
  let k := if start <? 0 then Z.max (len + start) 0 else Z.min start len in
  let final := if end_ <? 0 then Z.max (len + end_) 0 else Z.min end_ len in
  take (Z.to_nat (final - k)) (drop (Z.to_nat k) a).

(** Property names every object literal inherits from
    [Object.prototype]: [o[k]] is defined for these even when [o] has no
    own property [k]. *)
Definition object_prototype_keys : list string :=
  [ "constructor"; "__proto__"; "hasOwnProperty"; "isPrototypeOf";
    "propertyIsEnumerable"; "toLocaleString"; "toString"; "valueOf";
    "__defineGetter__"; "__defineSetter__"; "__lookupGetter__";
    "__lookupSetter__" ].

Definition inherited (k : string) : bool :=
  bool_decide (k ∈ object_prototype_keys).

(** The value of [o[k]] for an object literal [o] whose own properties
    hold values of type [V]. *)
Inductive prop (V : Type) : Type :=
| Own (v : V)          (* an own property *)
| Proto (k : string)   (* the member [k] of [Object.prototype] *)
| Undefined.
Arguments Own {V} v.
Arguments Proto {V} k.
Arguments Undefined {V}.

Definition get {V} (o : gmap string V) (k : string) : prop V :=
  match o !! k with
  | Some v => Own v
  | None => if inherited k then Proto k else Undefined
  end.

(** [o[k] = v]. Assigning [__proto__] replaces the prototype instead of
    creating an own property; the own properties are then unchanged (the
    replaced prototype itself is not tracked). *)
Definition set {V} (o : gmap string V) (k : string) (v : V) : gmap string V :=
  if String.eqb k "__proto__" then o else <[k := v]> o.

(** [delete o[k]]. *)
Definition remove {V} (o : gmap string V) (k : string) : gmap string V :=
  delete k o.

(** [`${v}`] for a member of [Object.prototype]: [__proto__] is the
    prototype object itself, the others are native functions. *)
Definition proto_text (k : string) : string :=
  if String.eqb k "__proto__" then "[object Object]"
  else if String.eqb k "constructor" then "function Object() { [native code] }"
  else "function " +:+ k +:+ "() { [native code] }".

(** The JavaScript values that travel through the error paths of
    [mineruRequest]: fields of a response body and results of a table
    lookup. *)
Inductive value :=
| VUndefined
| VString (s : string)
| VNumber (n : Z)
| VProto (k : string).   (* a member of [Object.prototype] *)

(** [ToBoolean]. *)
Definition to_boolean (v : value) : bool :=
  match v with
  | VUndefined => false
  | VString s => truthy s
  | VNumber n => negb (n =? 0)
  | VProto _ => true
  end.

(** [a || b]. *)
Definition or_else (a b : value) : value := if to_boolean a then a else b.

(** [String(v)], which is also what a template literal inserts. *)
Definition text (v : value) : string :=
  match v with
  | VUndefined => "undefined"
  | VString s => s
  | VNumber n => num n
  | VProto k => proto_text k
  end.

(** [v !== 0]. *)
Definition strict_ne_zero (v : value) : bool :=
  match v with
  | VNumber n => negb (n =? 0)
  | _ => true
  end.

(** [table[k]] as a value, for a table of strings. *)
Definition get_value (table : gmap string string) (k : string) : value :=
  match get table k with
  | Own s => VString s
  | Proto k' => VProto k'
  | Undefined => VUndefined
  end.

End Js.

(* ===================================================================== *)
(** ** Format helpers of [index.ts] *)
(* ===================================================================== *)

Module Format.
Import Js.

(** [extract_progress] of a task or of a batch entry. *)
Record Progress := {
  extracted_pages : Z;
  total_pages : Z;
  start_time : string
}.

(** The [state] union of [TaskStatus]. *)
Inductive TaskState := pending | running | done | failed | converting.

Definition state_text (s : TaskState) : string :=
  match s with
  | pending => "pending"
  | running => "running"
  | done => "done"
  | failed => "failed"
  | converting => "converting"
  end.

Record TaskStatus := {
  task_id : string;
  data_id : option string;
  state : TaskState;
  full_zip_url : option string;
  err_msg : option string;
  extract_progress : option Progress
}.

(** [status.state === lit]. *)
Definition state_is (status : TaskStatus) (lit : string) : bool :=
  String.eqb (state_text (state status)) lit.

(** [formatConciseStatus], index.ts lines 76-87. *)
Definition formatConciseStatus (status : TaskStatus) : string :=
  let parts := [state_text (state status); task_id status] in
  let parts :=
    if state_is status "done" && truthy_opt (full_zip_url status) then
      parts ++ [default "" (full_zip_url status)]
    else if state_is status "running"
            && bool_decide (is_Some (extract_progress status)) then
      match extract_progress status with
      | Some p =>
          parts ++ [num (extracted_pages p) +:+ "/" +:+ num (total_pages p)
                    +:+ " pages"]
      | None => parts
      end
    else if state_is status "failed" && truthy_opt (err_msg status) then
      parts ++ [default "" (err_msg status)]
    else parts in
  join " | " parts.

(** One element of [BatchStatus.extract_result]; its [state] is an
    arbitrary string. *)
Record BatchItem := {
  file_name : string;
  item_state : string;
  item_full_zip_url : option string;
  item_err_msg : option string;
  item_data_id : option string;
  item_extract_progress : option Progress
}.

Record BatchStatus := {
  batch_id : string;
  extract_result : list BatchItem
}.

(** The body of the [for] loop of [formatConciseBatch], lines 100-105. *)
Definition item_line (r : BatchItem) : string :=
  let line := "- " +:+ file_name r +:+ ": " +:+ item_state r in
  if String.eqb (item_state r) "done" && truthy_opt (item_full_zip_url r) then
    line +:+ " " +:+ default "" (item_full_zip_url r)
  else if String.eqb (item_state r) "running"
          && bool_decide (is_Some (item_extract_progress r)) then
    match item_extract_progress r with
    | Some p =>
        line +:+ " (" +:+ num (extracted_pages p) +:+ "/"
             +:+ num (total_pages p) +:+ ")"
    | None => line
    end
  else line.

(** The predicate of [filter((r) => r.state === "done")]. *)
Definition is_done (r : BatchItem) : bool := String.eqb (item_state r) "done".

(** [formatConciseBatch], index.ts lines 93-114, on integral [limit] and
    [offset]; the sums and differences are exact, as those of the code
    are while they stay within [exact]. *)
Definition formatConciseBatch (batch : BatchStatus) (limit offset : Z) : string :=
  let results := slice (extract_result batch) offset (offset + limit) in
  let total := Z.of_nat (length (extract_result batch)) in
  let done := Z.of_nat (length (List.filter is_done (extract_result batch))) in
  let lines :=
    ["Batch " +:+ batch_id batch +:+ ": " +:+ num done +:+ "/" +:+ num total
     +:+ " done"] in
  let lines := fold_left (fun lines r => lines ++ [item_line r]) results lines in
  let lines :=
    if offset + limit <? total then
      lines ++ ["[+" +:+ num (total - offset - limit) +:+ " more, use offset="
                +:+ num (offset + limit) +:+ "]"]
    else lines in
  join nl lines.

End Format.

(* ===================================================================== *)
(** ** The API client and the tool handlers of [index.ts] *)
(* ===================================================================== *)

Module Client.
Import Js Format.

(** [ERROR_MESSAGES], index.ts lines 25-35. *)
Definition ERROR_MESSAGES : gmap string string :=
  list_to_map
    [ ("A0202", "Token error. Check your API key.");
      ("A0211", "Token expired. Get a new API key.");
      ("-60002", "Invalid file format. Use: pdf, doc, docx, ppt, pptx, png, jpg, jpeg");
      ("-60005", "File too large. Max 200MB.");
      ("-60006", "Too many pages. Max 600 per file. Split the document.");
      ("-60008", "URL timeout. Check the URL is accessible.");
      ("-60009", "Queue full. Try again later.");
      ("-60012", "Task not found. Check task_id is valid.");
      ("-60013", "Access denied. You can only access your own tasks.") ].

Record Config := {
  mineruApiKey : string;
  mineruBaseUrl : string;
  mineruDefaultModel : string
}.

(** *** The HTTP boundary *)

Inductive Method := GET | POST.

(** JSON request bodies, properties in insertion order. *)
#[local] Unset Elimination Schemes.
Inductive Json :=
| JString (s : string)
| JBool (b : bool)
| JArray (items : list Json)
| JObject (props : list (string * Json)).
#[local] Set Elimination Schemes.

(** The argument of [axios({ ... })]. *)
Record AxiosRequest := {
  method : Method;
  url : string;
  headers : list (string * string);
  data : option Json
}.

(** The service's envelope, without its payload: [code] and [msg]. *)
Record Envelope := {
  code : value;
  msg : value
}.

(** [error.response] of an [AxiosError]. *)
Record ErrorResponse := {
  status : Z;
  response_data : option Envelope
}.

(** What can be thrown: a plain [Error] or an [AxiosError]. *)
Inductive Exn :=
| Error (message : string)
| AxiosError (response : option ErrorResponse) (message : string).

(** How one call of [axios] settles: fulfilled with [response.data]
    (envelope and payload [result.data]), or rejected. *)
Inductive AxiosOutcome (T : Type) :=
| Fulfilled (result : Envelope) (payload : T)
| Rejected (error : Exn).
Arguments Fulfilled {T} result payload.
Arguments Rejected {T} error.

(** The remote service as seen from the client. *)
Definition Axios (T : Type) : Type := AxiosRequest -> AxiosOutcome T.

(** *** Computations that may throw and that leave a trace *)

(** The trace of a run: each entry into [mineruRequest] and each request
    handed to [axios], in order. *)
Inductive Step :=
| Invoked (endpoint : string) (method : Method) (data : option Json)
| Sent (req : AxiosRequest).

Inductive Result (A : Type) :=
| Returned (a : A)
| Thrown (e : Exn).
Arguments Returned {A} a.
Arguments Thrown {A} e.

Definition M (A : Type) : Type := list Step -> Result A * list Step.

#[export] Instance M_ret : MRet M :=
  fun A (a : A) trace => (Returned a, trace).

Definition throw {A} (e : Exn) : M A := fun trace => (Thrown e, trace).

#[export] Instance M_bind : MBind M :=
  fun A B (k : A -> M B) (m : M A) trace =>
    match m trace with
    | (Returned a, trace') => k a trace'
    | (Thrown e, trace') => (Thrown e, trace')
    end.

(** [try { body } catch (error) { handler }]. *)
Definition try_catch {A} (body : M A) (handler : Exn -> M A) : M A :=
  fun trace =>
    match body trace with
    | (Returned a, trace') => (Returned a, trace')
    | (Thrown e, trace') => handler e trace'
    end.

Definition record (s : Step) : M unit :=
  fun trace => (Returned (), trace ++ [s]).

(** [await axios(req)]: the request goes out, then the call settles. *)
Definition await_axios {T} (axios : Axios T) (req : AxiosRequest)
  : M (Envelope * T) :=
  _ ← record (Sent req);
  match axios req with
  | Fulfilled result payload => mret (result, payload)
  | Rejected error => throw error
  end.

(** The requests that went out during a run. *)
Definition requests (trace : list Step) : list AxiosRequest :=
  omap (fun s => match s with Sent req => Some req | Invoked _ _ _ => None end)
       trace.

(** The number of times [mineruRequest] was entered. *)
Definition invocations (trace : list Step) : nat :=
  length (List.filter
            (fun s => match s with Invoked _ _ _ => true | Sent _ => false end)
            trace).

(** [error.response?.data?.code] and [error.response?.data?.msg]. *)
Definition response_field (f : Envelope -> value)
    (response : option ErrorResponse) : value :=
  match response with
  | Some r =>
      match response_data r with
      | Some d => f d
      | None => VUndefined
      end
  | None => VUndefined
  end.

(** [error.response?.status]. *)
Definition response_status (response : option ErrorResponse) : value :=
  match response with
  | Some r => VNumber (status r)
  | None => VUndefined
  end.

(** *** Tool parameters and responses *)

Inductive Model := pipeline | vlm.

Definition model_text (m : Model) : string :=
  match m with pipeline => "pipeline" | vlm => "vlm" end.

Inductive ExtraFormat := docx | html | latex.

Definition format_text (f : ExtraFormat) : string :=
  match f with docx => "docx" | html => "html" | latex => "latex" end.

Inductive OutputFormat := concise | detailed.

Module TaskResponse.
Record t := { task_id : string }.
End TaskResponse.

Module BatchResponse.
Record t := { batch_id : string }.
End BatchResponse.

Module ParseParams.
Record t := {
  url : string;
  model : option Model;
  pages : option string;
  ocr : option bool;
  formula : option bool;
  table : option bool;
  language : option string;
  formats : option (list ExtraFormat)
}.
End ParseParams.

Module StatusParams.
Record t := { task_id : string; format : OutputFormat }.
End StatusParams.

Module BatchParams.
Record t := {
  urls : list string;
  model : option Model;
  ocr : option bool;
  formula : option bool;
  table : option bool;
  language : option string;
  formats : option (list ExtraFormat)
}.
End BatchParams.

Module BatchStatusParams.
Record t := {
  batch_id : string;
  limit : option Z;
  offset : option Z;
  format : OutputFormat
}.
End BatchStatusParams.

(** [if (cond) requestData.key = v]: a new property goes last. *)
Definition assign_if (cond : bool) (key : string) (v : Json)
    (requestData : list (string * Json)) : list (string * Json) :=
  if cond then requestData ++ [(key, v)] else requestData.

(** [o !== undefined] for an optional boolean, and the value assigned. *)
Definition assign_flag (key : string) (o : option bool)
    (requestData : list (string * Json)) : list (string * Json) :=
  match o with
  | Some b => requestData ++ [(key, JBool b)]
  | None => requestData
  end.

(** [params.formats?.length]: truthy for a non-empty array. *)
Definition has_formats (o : option (list ExtraFormat)) : bool :=
  match o with
  | Some (_ :: _) => true
  | _ => false
  end.

Definition formats_json (o : option (list ExtraFormat)) : Json :=
  JArray (List.map (fun f => JString (format_text f)) (default [] o)).

Section createServer.
Variable config : Config.

(** [JSON.stringify(v, null, 2)] on a status record and on a batch
    record, used by the detailed formats only. *)
Variable stringify_status : TaskStatus -> string.
Variable stringify_batch : BatchStatus -> string.

Definition apiKey : string := mineruApiKey config.

Definition baseUrl : string :=
  if truthy (mineruBaseUrl config) then mineruBaseUrl config
  else "https://mineru.net/api/v4".

Definition defaultModel : string :=
  if truthy (mineruDefaultModel config) then mineruDefaultModel config
  else "pipeline".

(** [mineruRequest], index.ts lines 123-162. *)
Definition mineruRequest {T} (axios : Axios T) (endpoint : string)
    (method : Method) (data : option Json) : M T :=
  _ ← record (Invoked endpoint method data);
  if negb (truthy apiKey) then
    throw (Error "MINERU_API_KEY not set. Add it to your environment.")
  else
    try_catch
      (response ← await_axios axios
         {| method := method;
            url := baseUrl +:+ endpoint;
            headers := [("Content-Type", "application/json");
                        ("Authorization", "Bearer " +:+ apiKey)];
            data := data |};
       let result := response.1 in
       if strict_ne_zero (code result) then
         let code := text (code result) in
         let msg :=
           or_else (or_else (get_value ERROR_MESSAGES code) (msg result))
                   (VString "Unknown error") in
         throw (Error ("MinerU error " +:+ code +:+ ": " +:+ text msg))
       else mret response.2)
      (fun error =>
         match error with
         | AxiosError response message =>
             let code := response_field code response in
             if to_boolean code then
               let msg :=
                 or_else (get_value ERROR_MESSAGES (text code))
                         (response_field msg response) in
               throw (Error ("MinerU error " +:+ text code +:+ ": "
                             +:+ text msg))
             else
               throw (Error ("HTTP " +:+ text (response_status response)
                             +:+ ": " +:+ message))
         | _ => throw error
         end).

Definition formatDetailedStatus (status : TaskStatus) : string :=
  stringify_status status.

(** Tool 1, [mineru_parse], index.ts lines 190-213. *)
Definition mineru_parse (axios : Axios TaskResponse.t)
    (params : ParseParams.t) : M string :=
  let requestData :=
    [("url", JString (ParseParams.url params));
     ("model_version",
      JString (match ParseParams.model params with
               | Some m => model_text m
               | None => defaultModel
               end))] in
  let requestData :=
    assign_if (truthy_opt (ParseParams.pages params)) "page_ranges"
      (JString (default "" (ParseParams.pages params))) requestData in
  let requestData := assign_flag "is_ocr" (ParseParams.ocr params) requestData in
  let requestData :=
    assign_flag "enable_formula" (ParseParams.formula params) requestData in
  let requestData :=
    assign_flag "enable_table" (ParseParams.table params) requestData in
  let requestData :=
    assign_if (truthy_opt (ParseParams.language params)) "language"
      (JString (default "" (ParseParams.language params))) requestData in
  let requestData :=
    assign_if (has_formats (ParseParams.formats params)) "extra_formats"
      (formats_json (ParseParams.formats params)) requestData in
  result ← mineruRequest axios "/extract/task" POST (Some (JObject requestData));
  mret ("Task created: " +:+ TaskResponse.task_id result +:+ nl
        +:+ "Use mineru_status to check progress.").

(** Tool 2, [mineru_status], index.ts lines 228-239. *)
Definition mineru_status (axios : Axios TaskStatus)
    (params : StatusParams.t) : M string :=
  status ← mineruRequest axios
             ("/extract/task/" +:+ StatusParams.task_id params) GET None;
  mret (match StatusParams.format params with
        | detailed => formatDetailedStatus status
        | concise => formatConciseStatus status
        end).

(** Tool 3, [mineru_batch], index.ts lines 261-287. *)
Definition mineru_batch (axios : Axios BatchResponse.t)
    (params : BatchParams.t) : M string :=
  if 200 <? Z.of_nat (length (BatchParams.urls params)) then
    throw (Error "Max 200 URLs per batch. Split into smaller batches.")
  else
    let requestData :=
      [("files",
        JArray (List.map (fun url => JObject [("url", JString url)])
                         (BatchParams.urls params)));
       ("model_version",
        JString (match BatchParams.model params with
                 | Some m => model_text m
                 | None => defaultModel
                 end))] in
    let requestData := assign_flag "is_ocr" (BatchParams.ocr params) requestData in
    let requestData :=
      assign_flag "enable_formula" (BatchParams.formula params) requestData in
    let requestData :=
      assign_flag "enable_table" (BatchParams.table params) requestData in
    let requestData :=
      assign_if (truthy_opt (BatchParams.language params)) "language"
        (JString (default "" (BatchParams.language params))) requestData in
    let requestData :=
      assign_if (has_formats (BatchParams.formats params)) "extra_formats"
        (formats_json (BatchParams.formats params)) requestData in
    result ← mineruRequest axios "/extract/task/batch" POST
               (Some (JObject requestData));
    mret ("Batch created: " +:+ BatchResponse.batch_id result +:+ nl
          +:+ num (Z.of_nat (length (BatchParams.urls params)))
          +:+ " files queued." +:+ nl
          +:+ "Use mineru_batch_status to check progress.").

(** Tool 4, [mineru_batch_status], index.ts lines 304-317. *)
Definition mineru_batch_status (axios : Axios BatchStatus)
    (params : BatchStatusParams.t) : M string :=
  batch ← mineruRequest axios
            ("/extract-results/batch/" +:+ BatchStatusParams.batch_id params)
            GET None;
  mret (match BatchStatusParams.format params with
        | detailed => stringify_batch batch
        | concise =>
            formatConciseBatch batch
              (default 10 (BatchStatusParams.limit params))
              (default 0 (BatchStatusParams.offset params))
        end).

End createServer.

End Client.

(* ===================================================================== *)
(** ** The HTTP server of [server.ts] *)
(* ===================================================================== *)

Module Server.
Import Js.

(** A transport object is referred to by its identity. *)
Abbreviation Handle := nat.

Inductive Verb := POST | GET | DELETE.

(** The callbacks [server.ts] installs on a transport, as the SDK invokes
    them: [onsessioninitialized(newSessionId)], and [onclose()] run while
    [transport.sessionId] reads [sessionId]. *)
Inductive Event :=
| SessionInitialized (newSessionId : string)
| Closed (sessionId : option string).

(** The MCP SDK as the routes use it. [Transport] is the state of a
    [StreamableHTTPServerTransport]; [new_transport h] is the object built
    by the [h]-th [new StreamableHTTPServerTransport({...})] (its session
    ids come from [randomUUID()]); [connect] is
    [createServer({ config }).connect(transport)]; [handleRequest] is
    [transport.handleRequest(req, res, parsedBody)] and tells which
    callbacks ran, the transport's new state and what was sent on [res]. *)
Class Sdk := {
  Body : Type;
  Reply : Type;
  Transport : Type;
  isInitializeRequest : Body -> bool;
  new_transport : Handle -> Transport;
  connect : Transport -> Transport;
  handleRequest :
    Verb -> option string -> Body -> option Body -> Transport ->
    list Event * Transport * Reply
}.

(** The session map of line 25 (own properties only). *)
Abbreviation Registry := (gmap string Handle).

(** [onsessioninitialized], lines 39-42, for the transport [transport]. *)
Definition onsessioninitialized (transport : Handle) (newSessionId : string)
    (transports : Registry) : Registry :=
  set transports newSessionId transport.

(** [transport.onclose], lines 46-51. *)
Definition onclose (sessionId : option string) (transports : Registry)
    : Registry :=
  if truthy_opt sessionId then remove transports (default "" sessionId)
  else transports.

Definition fire (transport : Handle) (transports : Registry) (e : Event)
    : Registry :=
  match e with
  | SessionInitialized newSessionId =>
      onsessioninitialized transport newSessionId transports
  | Closed sessionId => onclose sessionId transports
  end.

(** [sessionId && transports[sessionId]]; [Undefined] stands for every
    falsy result. The members of [Object.prototype] are all truthy. *)
Definition lookup_session (transports : Registry) (sessionId : option string)
    : prop Handle :=
  if truthy_opt sessionId then get transports (default "" sessionId)
  else Undefined.

Section Routes.
Context `{Sdk}.

Record Request := {
  verb : Verb;
  sessionId : option string;   (* req.headers["mcp-session-id"] *)
  body : Body                  (* req.body *)
}.

(** The module state: the session map, the transport objects created so
    far, and how many times a [transport.handleRequest] has run. *)
Record State := {
  transports : Registry;
  heap : Handle -> Transport;
  next : Handle;
  forwarded : nat
}.

(** What a route does with the request. *)
Inductive Outcome :=
| BadRequestJson                    (* 400, JSON-RPC error -32000 *)
| BadRequestText                    (* 400, "Invalid or missing session ID" *)
| Handled (transport : Handle) (reply : Reply)
| TypeError (message : string).     (* the route's promise rejects *)

Definition initial : State :=
  {| transports := ∅; heap := new_transport; next := 0%nat; forwarded := 0 |}.

(** [await transport.handleRequest(req, res, parsedBody)]. *)
Definition forward (g : State) (transport : Handle) (req : Request)
    (parsedBody : option Body) : State * Outcome :=
  let '(events, t', reply) :=
    handleRequest (verb req) (sessionId req) (body req) parsedBody
                  (heap g transport) in
  ({| transports := fold_left (fire transport) events (transports g);
      heap := <[transport := t']> (heap g);
      next := next g;
      forwarded := S (forwarded g) |},
   Handled transport reply).

Definition not_a_function : Outcome :=
  TypeError "transport.handleRequest is not a function".

(** [app.post("/mcp")], lines 28-71. *)
Definition post_mcp (g : State) (req : Request) : State * Outcome :=
  match lookup_session (transports g) (sessionId req) with
  | Own transport => forward g transport req (Some (body req))
  | Proto _ => (g, not_a_function)
  | Undefined =>
      if negb (truthy_opt (sessionId req)) && isInitializeRequest (body req)
      then
        let transport := next g in
        let g' :=
          {| transports := transports g;
             heap := <[transport := connect (new_transport transport)]> (heap g);
             next := S (next g);
             forwarded := forwarded g |} in
        forward g' transport req (Some (body req))
      else (g, BadRequestJson)
  end.

(** [app.get("/mcp")], lines 74-83, and [app.delete("/mcp")],
    lines 86-95, which have the same body. *)
Definition get_mcp (g : State) (req : Request) : State * Outcome :=
  match lookup_session (transports g) (sessionId req) with
  | Undefined => (g, BadRequestText)
  | Own transport => forward g transport req None
  | Proto _ => (g, not_a_function)
  end.

Definition delete_mcp (g : State) (req : Request) : State * Outcome :=
  match lookup_session (transports g) (sessionId req) with
  | Undefined => (g, BadRequestText)
  | Own transport => forward g transport req None
  | Proto _ => (g, not_a_function)
  end.

Definition route (g : State) (req : Request) : State * Outcome :=
  match verb req with
  | POST => post_mcp g req
  | GET => get_mcp g req
  | DELETE => delete_mcp g req
  end.

(** The requests of a run, served one after the other. *)
Definition serve (g : State) (reqs : list Request) : State :=
  fold_left (fun g req => (route g req).1) reqs g.

End Routes.

(** A stand-in for the SDK on which the routes can be run: bodies are
    JSON-RPC method names, a transport is its session id once
    initialised, an [initialize] request initialises the transport and a
    DELETE closes it. *)
#[export] Instance stub_sdk : Sdk := {|
  Body := string;
  Reply := string;
  Transport := nat * option string;
  isInitializeRequest b := String.eqb b "initialize";
  new_transport h := (h, None);
  connect t := t;
  handleRequest v sid b parsed t :=
    match v with
    | POST =>
        if String.eqb b "initialize" then
          let id := "session-" +:+ pretty t.1 in
          ([SessionInitialized id], (t.1, Some id), "initialized")
        else ([], t, "result")
    | GET => ([], t, "stream")
    | DELETE => ([Closed t.2], t, "closed")
    end
|}.

End Server.

(* ===================================================================== *)
(** ** Start-up in stdio mode, [main] of [index.ts] *)
(* ===================================================================== *)

Module Startup.
Import Js Client.

(** [process.env.NAME || fallback]. *)
Definition env_or (env : gmap string string) (name fallback : string) : string :=
  match env !! name with
  | Some v => if truthy v then v else fallback
  | None => fallback
  end.

(** The configuration built by [main], index.ts lines 325-329. *)
Definition main_config (env : gmap string string) : Config :=
  {| mineruApiKey := env_or env "MINERU_API_KEY" "";
     mineruBaseUrl := env_or env "MINERU_BASE_URL" "https://mineru.net/api/v4";
     mineruDefaultModel := env_or env "MINERU_DEFAULT_MODEL" "pipeline" |}.

End Startup.

(* ===================================================================== *)
(** ** The documented behaviour, stated independently of the code *)
(* ===================================================================== *)

Module Spec.
Import Js Format.

(** The optional third field of the concise status text: the result URL
    when done, the page progress when running, the error message when
    failed. *)
Definition status_extra (s : TaskStatus) : option string :=
  match state s with
  | done => if truthy_opt (full_zip_url s) then full_zip_url s else None
  | running =>
      (fun p => num (extracted_pages p) +:+ "/" +:+ num (total_pages p)
                +:+ " pages") <$> extract_progress s
  | failed => if truthy_opt (err_msg s) then err_msg s else None
  | _ => None
  end.

(** ["<state> | <task_id>[ | <extra>]"]. *)
Definition concise_status_text (s : TaskStatus) : string :=
  state_text (state s) +:+ " | " +:+ task_id s
  +:+ match status_extra s with
      | Some extra => " | " +:+ extra
      | None => ""
      end.

(** The slice [[offset, offset+limit)] clamped to [[0, N]]. *)
Definition clamped_slice {A} (l : list A) (limit offset : Z) : list A :=
  let lo := Z.max 0 offset in
  let hi := Z.min (Z.of_nat (length l)) (offset + limit) in
  drop (Z.to_nat lo) (take (Z.to_nat hi) l).

(** [done_count] over the whole sequence. *)
Definition done_count (l : list BatchItem) : Z :=
  Z.of_nat (length (filter (fun r => item_state r = "done") l)).

Definition batch_header (batch : BatchStatus) : string :=
  "Batch " +:+ batch_id batch +:+ ": "
  +:+ num (done_count (extract_result batch)) +:+ "/"
  +:+ num (Z.of_nat (length (extract_result batch))) +:+ " done".

(** The continuation hint: present exactly when [offset + limit < N]. *)
Definition continuation_hint (N limit offset : Z) : list string :=
  if bool_decide (offset + limit < N) then
    ["[+" +:+ num (N - offset - limit) +:+ " more, use offset="
     +:+ num (offset + limit) +:+ "]"]
  else [].

(** The paginated concise text: header, the items of the clamped slice
    in their original order, then the hint. *)
Definition concise_batch_text (batch : BatchStatus) (limit offset : Z)
    : string :=
  join nl
    ([batch_header batch]
     ++ (item_line <$> clamped_slice (extract_result batch) limit offset)
     ++ continuation_hint (Z.of_nat (length (extract_result batch)))
          limit offset).

(** The offset a caller is told to use next, read off the test of
    index.ts line 109. *)
Definition next_offset (batch : BatchStatus) (limit offset : Z) : option Z :=
  if offset + limit <? Z.of_nat (length (extract_result batch)) then
    Some (offset + limit)
  else None.

(** A caller that pages through a batch by following the hints; it
    gives up when [fuel] calls were not enough. *)
Fixpoint paging (fuel : nat) (batch : BatchStatus) (limit offset : Z)
    : option (list string) :=
  match fuel with
  | O => None
  | S fuel' =>
      let page := formatConciseBatch batch limit offset in
      match next_offset batch limit offset with
      | None => Some [page]
      | Some offset' => (page ::.) <$> paging fuel' batch limit offset'
      end
  end.

(** The message of a remote error: the entry of the fixed table when
    the code is known, else the service-provided message, else
    ["Unknown error"]. *)
Definition error_message (code : string) (msg : value) : string :=
  match Client.ERROR_MESSAGES !! code with
  | Some m => m
  | None => if to_boolean msg then text msg else "Unknown error"
  end.

End Spec.

(* ===================================================================== *)
(** ** Sample data on which the code is run *)
(* ===================================================================== *)

Module Samples.
Import Js Format.

(** Three queued files, used to run the formatter. *)
Definition sample_item (name : string) : BatchItem :=
  {| file_name := name; item_state := "pending"; item_full_zip_url := None;
     item_err_msg := None; item_data_id := None;
     item_extract_progress := None |}.

Definition sample_batch : BatchStatus :=
  {| batch_id := "b1";
     extract_result := [sample_item "a.pdf"; sample_item "b.pdf";
                        sample_item "c.pdf"] |}.

(** Twenty-five queued files [f0.pdf] ... [f24.pdf]. *)
Definition sample_batch_25 : BatchStatus :=
  {| batch_id := "b25";
     extract_result :=
       (fun i : nat => sample_item ("f" +:+ pretty i +:+ ".pdf")) <$> seq 0 25 |}.

Definition sample_config : Client.Config :=
  {| Client.mineruApiKey := "key-123";
     Client.mineruBaseUrl := "";
     Client.mineruDefaultModel := "" |}.

(** The configuration [main] builds when [MINERU_API_KEY] is not set. *)
Definition no_key_config : Client.Config :=
  {| Client.mineruApiKey := "";
     Client.mineruBaseUrl := "https://mineru.net/api/v4";
     Client.mineruDefaultModel := "pipeline" |}.

(** A remote service that refuses every connection. *)
Definition unreachable {T} : Client.Axios T :=
  fun _ => Client.Rejected (Client.AxiosError None "connect ECONNREFUSED").

(** A remote service that answers 200 with the envelope
    [{ code: -60006, msg: "page limit" }]. *)
Definition too_many_pages {T} (payload : T) : Client.Axios T :=
  fun _ => Client.Fulfilled
             {| Client.code := VNumber (-60006);
                Client.msg := VString "page limit" |} payload.

(** A remote service that answers 500 with the body [{ code: "E999" }]:
    an unknown code and no [msg]. *)
Definition server_error {T} : Client.Axios T :=
  fun _ => Client.Rejected
             (Client.AxiosError
                (Some {| Client.status := 500;
                         Client.response_data :=
                           Some {| Client.code := VString "E999";
                                   Client.msg := VUndefined |} |})
                "Request failed with status code 500").

Definition batch_of (urls : list string) : Client.BatchParams.t :=
  {| Client.BatchParams.urls := urls;
     Client.BatchParams.model := None;
     Client.BatchParams.ocr := None;
     Client.BatchParams.formula := None;
     Client.BatchParams.table := None;
     Client.BatchParams.language := None;
     Client.BatchParams.formats := None |}.

(** Requests against the stand-in SDK. *)
Definition initialize_request (sessionId : option string)
    : @Server.Request Server.stub_sdk :=
  @Server.Build_Request Server.stub_sdk Server.POST sessionId "initialize".

Definition call_request (verb : Server.Verb) (sessionId : option string)
    : @Server.Request Server.stub_sdk :=
  @Server.Build_Request Server.stub_sdk verb sessionId "tools/call".

(** A remote service that answers every request with code 0 and the
    given payload. *)
Definition succeeds {T} (payload : T) : Client.Axios T :=
  fun _ => Client.Fulfilled
             {| Client.code := VNumber 0; Client.msg := VString "ok" |} payload.

(** A remote service that answers 401 with the body
    [{ code: "A0202", msg: "unauthorized" }]. *)
Definition unauthorized {T} : Client.Axios T :=
  fun _ => Client.Rejected
             (Client.AxiosError
                (Some {| Client.status := 401;
                         Client.response_data :=
                           Some {| Client.code := VString "A0202";
                                   Client.msg := VString "unauthorized" |} |})
                "Request failed with status code 401").

(** An [axios] call that fails with an error of another kind. *)
Definition broken {T} : Client.Axios T :=
  fun _ => Client.Rejected (Client.Error "socket hang up").

Definition sample_status : TaskStatus :=
  {| task_id := "t1"; data_id := None; state := running;
     full_zip_url := None; err_msg := None;
     extract_progress :=
       Some {| extracted_pages := 3; total_pages := 10; start_time := "" |} |}.

Definition parse_of (url : string) (ocr : option bool) : Client.ParseParams.t :=
  {| Client.ParseParams.url := url;
     Client.ParseParams.model := None;
     Client.ParseParams.pages := None;
     Client.ParseParams.ocr := ocr;
     Client.ParseParams.formula := None;
     Client.ParseParams.table := None;
     Client.ParseParams.language := None;
     Client.ParseParams.formats := None |}.

(** A batch entry without its [err_msg] and [data_id]. *)
Definition without_error (r : BatchItem) : BatchItem :=
  {| file_name := file_name r; item_state := item_state r;
     item_full_zip_url := item_full_zip_url r;
     item_err_msg := None; item_data_id := None;
     item_extract_progress := item_extract_progress r |}.

(** The consecutive pages of size [limit] requested at offsets
    [0, limit, 2 limit, ...], [n] of them. *)
Definition pages {A} (l : list A) (limit : Z) (n : nat) : list (list A) :=
  (fun k : nat => slice l (Z.of_nat k * limit) (Z.of_nat k * limit + limit))
    <$> seq 0 n.

End Samples.

(* ===================================================================== *)
(** ** Properties of the format helpers *)
(* ===================================================================== *)

Module FormatFacts.
Import Js Format Spec Samples.

Lemma append_empty_r (s : string) : s +:+ "" = s.
Proof.
  induction s as [|c s IH]; [done|].
  change (String c (s +:+ "") = String c s). by f_equal.
Qed.

Lemma fold_left_push {A} (f : A -> string) (results : list A) (lines : list string) :
  fold_left (fun lines r => lines ++ [f r]) results lines = lines ++ (f <$> results).
Proof.
  revert lines. induction results as [|r results IH]; intros lines; simpl.
  - by rewrite app_nil_r.
  - rewrite IH. by rewrite <- app_assoc.
Qed.

Lemma done_count_filter (l : list BatchItem) :
  Z.of_nat (length (List.filter is_done l)) = done_count l.
Proof.
  unfold done_count. f_equal. f_equal.
  induction l as [|r l IH]; [done|].
  simpl. rewrite filter_cons. unfold is_done at 1.
  destruct (String.eqb_spec (item_state r) "done") as [E|E];
    rewrite decide_bool_decide.
  - rewrite bool_decide_eq_true_2 by done. by rewrite IH.
  - by rewrite bool_decide_eq_false_2.
Qed.

(** On non-negative bounds [slice] is the clamped slice. *)
Lemma slice_clamped {A} (l : list A) (limit offset : Z) :
  0 <= offset -> 0 <= offset + limit ->
  slice l offset (offset + limit) = clamped_slice l limit offset.
Proof.
  intros Ho Hol. unfold slice, clamped_slice.
  destruct (Z.ltb_spec offset 0) as [?|_]; [lia|].
  destruct (Z.ltb_spec (offset + limit) 0) as [?|_]; [lia|].
  rewrite Z.max_r by done.
  set (len := Z.of_nat (length l)).
  destruct (Z.le_gt_cases len offset) as [Hge|Hlt].
  - (* the slice starts at or past the end *)
    rewrite (Z.min_r offset len) by done.
    rewrite (drop_ge l (Z.to_nat len)) by (subst len; lia).
    rewrite take_nil. symmetry. apply drop_ge.
    rewrite length_take. subst len. lia.
  - rewrite (Z.min_l offset len) by lia.
    rewrite take_drop_commute.
    destruct (Z.le_gt_cases offset (offset + limit)) as [Hle|Hgt].
    + replace (Z.to_nat offset + Z.to_nat (Z.min (offset + limit) len - offset))%nat
        with (Z.to_nat (Z.min (offset + limit) len)) by lia.
      by rewrite Z.min_comm.
    + (* a negative limit: nothing is selected *)
      rewrite !drop_ge; [done| |]; rewrite length_take; lia.
Qed.

Lemma hint_lines (N limit offset : Z) (lines : list string) :
  (if offset + limit <? N then
     lines ++ ["[+" +:+ num (N - offset - limit) +:+ " more, use offset="
               +:+ num (offset + limit) +:+ "]"]
   else lines)
  = lines ++ continuation_hint N limit offset.
Proof.
  unfold continuation_hint.
  destruct (Z.ltb_spec (offset + limit) N).
  - by rewrite bool_decide_eq_true_2.
  - rewrite bool_decide_eq_false_2 by lia. by rewrite app_nil_r.
Qed.

(** The text of [formatConciseBatch] in terms of the JavaScript slice. *)
Lemma formatConciseBatch_lines (batch : BatchStatus) (limit offset : Z) :
  formatConciseBatch batch limit offset
  = join nl ([batch_header batch]
             ++ (item_line <$> slice (extract_result batch) offset (offset + limit))
             ++ continuation_hint (Z.of_nat (length (extract_result batch)))
                  limit offset).
Proof.
  unfold formatConciseBatch, batch_header.
  rewrite hint_lines, fold_left_push, done_count_filter.
  by rewrite <- app_assoc.
Qed.

(** The example of the specification: 25 results, pages of 10. *)
Example formatConciseBatch_25 :
  formatConciseBatch sample_batch_25 10 0
    = join nl
        (["Batch b25: 0/25 done"]
         ++ ((fun i : nat => "- f" +:+ pretty i +:+ ".pdf: pending") <$> seq 0 10)
         ++ ["[+15 more, use offset=10]"])
  /\ formatConciseBatch sample_batch_25 10 20
    = join nl
        (["Batch b25: 0/25 done"]
         ++ ((fun i : nat => "- f" +:+ pretty i +:+ ".pdf: pending") <$> seq 20 5)).
Proof. split; by vm_compute. Qed.

(** C5, as stated, fails on a negative offset: [slice] then counts from
    the end of the array, so with three results, [limit = 1] and
    [offset = -2] the formatter lists the second file, whereas the slice
    [[-2, -1)] clamped to [[0, 3]] is empty. *)
Lemma formatConciseBatch_negative_offset :
  formatConciseBatch sample_batch 1 (-2)
    = "Batch b1: 0/3 done" +:+ nl +:+ "- b.pdf: pending" +:+ nl
      +:+ "[+4 more, use offset=-1]"
  /\ concise_batch_text sample_batch 1 (-2)
    = "Batch b1: 0/3 done" +:+ nl +:+ "[+4 more, use offset=-1]"
  /\ formatConciseBatch sample_batch 1 (-2) <> concise_batch_text sample_batch 1 (-2).
Proof. split; [|split]; [by vm_compute | by vm_compute |]. by vm_compute. Qed.

(** C5 (amended): for every batch of [N] results ([N < 2^32], as for
    every array) and all integers [limit] and [offset] with
    [0 <= offset <= 2^52], [limit <= 2^52] and [0 <= offset + limit], every
    number the formatter computes is an integer of magnitude at most
    2^53, so that its arithmetic is exact, and the concise batch text is
    the header with [done/N] counted over the whole sequence, then the
    items of the slice [[offset, offset+limit)] clamped to [[0, N]] in
    their original order, then the continuation hint
    ["[+(N-offset-limit) more, use offset=(offset+limit)]"], the hint being
    present if and only if [offset + limit < N]. *)
Theorem formatConciseBatch_page (batch : BatchStatus) (limit offset : Z) :
  Z.of_nat (length (extract_result batch)) < 2 ^ 32 ->
  0 <= offset <= 2 ^ 52 -> limit <= 2 ^ 52 -> 0 <= offset + limit ->
  (exact (offset + limit)
   /\ exact (Z.of_nat (length (extract_result batch)) - offset)
   /\ exact (Z.of_nat (length (extract_result batch)) - offset - limit))
  /\ formatConciseBatch batch limit offset = concise_batch_text batch limit offset.
Proof.
  intros HN Ho Hl Hol. split.
  - unfold exact. lia.
  - rewrite formatConciseBatch_lines.
    unfold concise_batch_text. by rewrite slice_clamped by lia.
Qed.

Lemma formatConciseBatch_page_witness :
  Z.of_nat (length (extract_result sample_batch)) < 2 ^ 32
  /\ 0 <= 1 <= 2 ^ 52 /\ 2 <= 2 ^ 52 /\ 0 <= 1 + 2
  /\ formatConciseBatch sample_batch 2 1 = concise_batch_text sample_batch 2 1.
Proof.
  split; [simpl; lia|]. split; [lia|]. split; [lia|]. split; [lia|].
  apply (formatConciseBatch_page sample_batch 2 1); simpl; lia.
Defined.

(** C8: the concise status text is ["<state> | <task_id>"], followed by
    [" | <extra>"] when there is an extra: the result URL when the state
    is done, ["<extracted>/<total> pages"] when it is running, the error
    message when it is failed. In particular a running task with 3 of
    10 pages extracted yields ["running | <task_id> | 3/10 pages"]. *)
Theorem formatConciseStatus_text :
  (forall status : TaskStatus,
      formatConciseStatus status = concise_status_text status)
  /\ (forall (id : string) (data url err : option string) (start : string),
        formatConciseStatus
          {| task_id := id; data_id := data; state := running;
             full_zip_url := url; err_msg := err;
             extract_progress :=
               Some {| extracted_pages := 3; total_pages := 10;
                       start_time := start |} |}
        = "running | " +:+ id +:+ " | 3/10 pages").
Proof.
  split.
  - intros [id data st url err progress].
    unfold formatConciseStatus, concise_status_text, status_extra, state_is.
    destruct st; simpl.
    + by rewrite append_empty_r.
    + destruct progress as [p|]; simpl; [done|].
      by rewrite append_empty_r.
    + destruct (truthy_opt url) eqn:Hurl; simpl.
      * destruct url as [u|]; [done|discriminate].
      * by rewrite append_empty_r.
    + destruct (truthy_opt err) eqn:Herr; simpl.
      * destruct err as [e|]; [done|discriminate].
      * by rewrite append_empty_r.
    + by rewrite append_empty_r.
  - done.
Qed.

Lemma next_offset_limit_zero (batch : BatchStatus) (offset : Z) :
  offset < Z.of_nat (length (extract_result batch)) ->
  next_offset batch 0 offset = Some offset.
Proof.
  intros Hlt. unfold next_offset. rewrite Z.add_0_r.
  destruct (Z.ltb_spec offset (Z.of_nat (length (extract_result batch))));
    [done|lia].
Qed.

(** C10: for every batch of [N] results and every [offset] with
    [0 <= offset < N], the concise batch text for [limit = 0] is the
    header line followed only by the continuation hint, which lists
    [N - offset] remaining items and advertises the given [offset] again;
    a caller that follows the hints therefore requests the same page
    forever: no number of calls completes the paging. *)
Theorem formatConciseBatch_limit_zero (batch : BatchStatus) (offset : Z) :
  0 <= offset < Z.of_nat (length (extract_result batch)) ->
  formatConciseBatch batch 0 offset
    = batch_header batch +:+ nl +:+ "[+"
      +:+ num (Z.of_nat (length (extract_result batch)) - offset)
      +:+ " more, use offset=" +:+ num offset +:+ "]"
  /\ next_offset batch 0 offset = Some offset
  /\ forall fuel : nat, paging fuel batch 0 offset = None.
Proof.
  intros [Ho Hlt]. split; [|split].
  - rewrite formatConciseBatch_lines.
    rewrite slice_clamped by lia.
    unfold clamped_slice, continuation_hint.
    rewrite Z.add_0_r, Z.sub_0_r.
    rewrite bool_decide_eq_true_2 by done.
    rewrite drop_ge by (rewrite length_take; lia).
    done.
  - by apply next_offset_limit_zero.
  - intros fuel. induction fuel as [|fuel IH]; [done|].
    simpl. rewrite next_offset_limit_zero by done. by rewrite IH.
Qed.

Lemma formatConciseBatch_limit_zero_witness :
  0 <= 1 < Z.of_nat (length (extract_result sample_batch))
  /\ formatConciseBatch sample_batch 0 1
    = batch_header sample_batch +:+ nl +:+ "[+" +:+ num (3 - 1)
      +:+ " more, use offset=" +:+ num 1 +:+ "]"
  /\ next_offset sample_batch 0 1 = Some 1
  /\ forall fuel : nat, paging fuel sample_batch 0 1 = None.
Proof.
  split; [simpl; lia|].
  apply (formatConciseBatch_limit_zero sample_batch 1). simpl. lia.
Defined.

End FormatFacts.

(* ===================================================================== *)
(** ** Properties of the API client and of the tool handlers *)
(* ===================================================================== *)

Module ClientFacts.
Import Js Format Client Spec Samples.

Lemma requests_invoked (trace : list Step) endpoint method data :
  requests (trace ++ [Invoked endpoint method data]) = requests trace.
Proof. unfold requests. rewrite omap_app. simpl. by rewrite app_nil_r. Qed.

Lemma ERROR_MESSAGES_truthy (k m : string) :
  ERROR_MESSAGES !! k = Some m -> truthy m = true.
Proof.
  assert (map_Forall (fun _ m => truthy m = true) ERROR_MESSAGES) as Hall.
  { apply (bool_decide_unpack _). by vm_compute. }
  intros Hk. exact (Hall k m Hk).
Qed.

(** The lookup-and-fallback chain of line 146 computes the documented
    message, for every code that is not a member of [Object.prototype]. *)
Lemma fallback_chain (code : string) (msg : value) :
  inherited code = false ->
  text (or_else (or_else (get_value ERROR_MESSAGES code) msg)
                (VString "Unknown error"))
  = error_message code msg.
Proof.
  intros Hown. unfold error_message, get_value, get.
  destruct (ERROR_MESSAGES !! code) as [m|] eqn:Hm.
  - unfold or_else. simpl. rewrite (ERROR_MESSAGES_truthy _ _ Hm). simpl.
    by rewrite (ERROR_MESSAGES_truthy _ _ Hm).
  - rewrite Hown. unfold or_else. simpl.
    by destruct (to_boolean msg).
Qed.

(** With a key configured, [mineruRequest] sends one request. *)
Lemma mineruRequest_sends (config : Config) {T} (axios : Axios T)
    (endpoint : string) (method : Method) (data : option Json) (trace : list Step) :
  truthy (mineruApiKey config) = true ->
  (mineruRequest config axios endpoint method data trace).2
  = trace ++ [Invoked endpoint method data]
      ++ [Sent {| method := method;
                  url := baseUrl config +:+ endpoint;
                  headers := [("Content-Type", "application/json");
                              ("Authorization", "Bearer " +:+ apiKey config)];
                  data := data |}].
Proof.
  intros Hkey. unfold mineruRequest, apiKey. rewrite Hkey. simpl.
  unfold mbind, M_bind, try_catch, await_axios, mbind, M_bind, record.
  rewrite <- app_assoc.
  destruct (axios _) as [result payload|error]; simpl.
  - by destruct (strict_ne_zero (code result)).
  - destruct error as [m|response m]; [done|].
    by destruct (to_boolean (response_field code response)).
Qed.

(** On a 2xx response whose envelope carries a non-success code, the call
    throws ["MinerU error <code>: <message>"] with the documented message. *)
Lemma mineruRequest_envelope_error (config : Config) {T} (axios : Axios T)
    (endpoint : string) (method : Method) (data : option Json) (trace : list Step)
    (result : Envelope) (payload : T) :
  truthy (mineruApiKey config) = true ->
  axios {| method := method;
           url := baseUrl config +:+ endpoint;
           headers := [("Content-Type", "application/json");
                       ("Authorization", "Bearer " +:+ apiKey config)];
           data := data |} = Fulfilled result payload ->
  strict_ne_zero (code result) = true ->
  inherited (text (code result)) = false ->
  (mineruRequest config axios endpoint method data trace).1
  = Thrown (Error ("MinerU error " +:+ text (code result) +:+ ": "
                   +:+ error_message (text (code result)) (msg result))).
Proof.
  intros Hkey Hax Hcode Hown. unfold mineruRequest, apiKey. rewrite Hkey. simpl.
  unfold mbind, M_bind, try_catch, await_axios, mbind, M_bind, record.
  unfold apiKey in Hax. rewrite Hax. simpl. rewrite Hcode. simpl.
  by rewrite fallback_chain.
Qed.

(** The example of the specification: envelope code [-60006]. *)
Lemma mineruRequest_too_many_pages {T} (payload : T)
    (endpoint : string) (method : Method) (data : option Json) (trace : list Step) :
  (mineruRequest sample_config (too_many_pages payload) endpoint method data trace).1
  = Thrown (Error "MinerU error -60006: Too many pages. Max 600 per file. Split the document.").
Proof. by vm_compute. Qed.

(** On a non-2xx response the [catch] block resolves the message through
    the same table, but its chain stops at the service-provided message. *)
Lemma mineruRequest_http_error (config : Config) {T} (axios : Axios T)
    (endpoint : string) (method : Method) (data : option Json) (trace : list Step)
    (response : option ErrorResponse) (message : string) :
  truthy (mineruApiKey config) = true ->
  axios {| method := method;
           url := baseUrl config +:+ endpoint;
           headers := [("Content-Type", "application/json");
                       ("Authorization", "Bearer " +:+ apiKey config)];
           data := data |} = Rejected (AxiosError response message) ->
  to_boolean (response_field code response) = true ->
  (mineruRequest config axios endpoint method data trace).1
  = Thrown (Error ("MinerU error " +:+ text (response_field code response) +:+ ": "
                   +:+ text (or_else
                               (get_value ERROR_MESSAGES
                                          (text (response_field code response)))
                               (response_field msg response)))).
Proof.
  intros Hkey Hax Hcode. unfold mineruRequest, apiKey. rewrite Hkey. simpl.
  unfold mbind, M_bind, try_catch, await_axios, mbind, M_bind, record.
  unfold apiKey in Hax. rewrite Hax. simpl. by rewrite Hcode.
Qed.

(** C6 (the code departs from it): on the body [{ code: "E999" }] of a
    500 response, an unknown code with no service message, the documented
    message is ["Unknown error"], as the 2xx path of line 146 produces
    ([mineruRequest_envelope_error]); the [catch] block of lines 153-157
    has no such fallback and throws ["MinerU error E999: undefined"]. *)
Theorem mineruRequest_http_error_without_msg :
  (forall endpoint method data trace,
      (mineruRequest sample_config (@server_error unit) endpoint method data trace).1
      = Thrown (Error "MinerU error E999: undefined"))
  /\ error_message "E999" VUndefined = "Unknown error"
  /\ (forall endpoint method data trace,
        (mineruRequest sample_config
           (fun _ => Fulfilled {| code := VString "E999"; msg := VUndefined |} ())
           endpoint method data trace).1
        = Thrown (Error "MinerU error E999: Unknown error")).
Proof. split; [|split]; intros; by vm_compute. Qed.

(** C4: for every call of the [mineru_batch] handler with more than 200
    URLs, whatever the configuration and the remote service, the handler
    throws ["Max 200 URLs per batch. Split into smaller batches."] and
    leaves the trace as it was: [mineruRequest] is not entered and no
    request is sent. *)
Theorem mineru_batch_over_200 (config : Config) (axios : Axios BatchResponse.t)
    (params : BatchParams.t) (trace : list Step) :
  (200 < length (BatchParams.urls params))%nat ->
  mineru_batch config axios params trace
    = (Thrown (Error "Max 200 URLs per batch. Split into smaller batches."), trace)
  /\ invocations (mineru_batch config axios params trace).2 = invocations trace
  /\ requests (mineru_batch config axios params trace).2 = requests trace.
Proof.
  intros Hlen.
  assert (mineru_batch config axios params trace
          = (Thrown (Error "Max 200 URLs per batch. Split into smaller batches."),
             trace)) as ->; [|done].
  unfold mineru_batch.
  destruct (Z.ltb_spec 200 (Z.of_nat (length (BatchParams.urls params))));
    [done|lia].
Qed.

Lemma mineru_batch_over_200_witness :
  (200 < length (BatchParams.urls
                   (batch_of (replicate 201 "https://example.com/a.pdf"))))%nat
  /\ mineru_batch sample_config unreachable
    (batch_of (replicate 201 "https://example.com/a.pdf")) []
    = (Thrown (Error "Max 200 URLs per batch. Split into smaller batches."), [])
  /\ invocations
       (mineru_batch sample_config unreachable
          (batch_of (replicate 201 "https://example.com/a.pdf")) []).2
     = invocations []
  /\ requests
       (mineru_batch sample_config unreachable
          (batch_of (replicate 201 "https://example.com/a.pdf")) []).2
     = requests [].
Proof.
  split; [vm_compute; lia|].
  apply (mineru_batch_over_200 sample_config unreachable
           (batch_of (replicate 201 "https://example.com/a.pdf")) []).
  vm_compute. lia.
Defined.

Lemma mineruRequest_without_key (config : Config) {T} (axios : Axios T)
    (endpoint : string) (method : Method) (data : option Json) (trace : list Step) :
  mineruApiKey config = "" ->
  mineruRequest config axios endpoint method data trace
  = (Thrown (Error "MINERU_API_KEY not set. Add it to your environment."),
     trace ++ [Invoked endpoint method data]).
Proof. intros Hkey. unfold mineruRequest, apiKey. by rewrite Hkey. Qed.

(** C7: when the configured API key is empty, every call of
    [mineruRequest] throws ["MINERU_API_KEY not set. Add it to your
    environment."] right after being entered, without handing a request
    to [axios]; hence [mineru_parse], [mineru_status] and
    [mineru_batch_status] fail with that error and send nothing, and so
    does [mineru_batch] whenever it reaches its remote call (at most 200
    URLs), sending nothing in any case. *)
Theorem missing_key_fails_before_http (config : Config)
    (stringify_status : TaskStatus -> string)
    (stringify_batch : BatchStatus -> string) :
  mineruApiKey config = "" ->
  (forall T (axios : Axios T) endpoint method data trace,
      mineruRequest config axios endpoint method data trace
      = (Thrown (Error "MINERU_API_KEY not set. Add it to your environment."),
         trace ++ [Invoked endpoint method data])
      /\ requests (mineruRequest config axios endpoint method data trace).2
         = requests trace)
  /\ (forall axios params trace,
        (mineru_parse config axios params trace).1
        = Thrown (Error "MINERU_API_KEY not set. Add it to your environment.")
        /\ requests (mineru_parse config axios params trace).2 = requests trace)
  /\ (forall axios params trace,
        (mineru_status config stringify_status axios params trace).1
        = Thrown (Error "MINERU_API_KEY not set. Add it to your environment.")
        /\ requests (mineru_status config stringify_status axios params trace).2
           = requests trace)
  /\ (forall axios params trace,
        (mineru_batch_status config stringify_batch axios params trace).1
        = Thrown (Error "MINERU_API_KEY not set. Add it to your environment.")
        /\ requests (mineru_batch_status config stringify_batch axios params trace).2
           = requests trace)
  /\ (forall axios params trace,
        ((length (BatchParams.urls params) <= 200)%nat ->
         (mineru_batch config axios params trace).1
         = Thrown (Error "MINERU_API_KEY not set. Add it to your environment."))
        /\ requests (mineru_batch config axios params trace).2 = requests trace).
Proof.
  intros Hkey. repeat split.
  - by apply mineruRequest_without_key.
  - rewrite mineruRequest_without_key by done. apply requests_invoked.
  - unfold mineru_parse, mbind, M_bind.
    by rewrite mineruRequest_without_key.
  - unfold mineru_parse, mbind, M_bind.
    rewrite mineruRequest_without_key by done. apply requests_invoked.
  - unfold mineru_status, mbind, M_bind.
    by rewrite mineruRequest_without_key.
  - unfold mineru_status, mbind, M_bind.
    rewrite mineruRequest_without_key by done. apply requests_invoked.
  - unfold mineru_batch_status, mbind, M_bind.
    by rewrite mineruRequest_without_key.
  - unfold mineru_batch_status, mbind, M_bind.
    rewrite mineruRequest_without_key by done. apply requests_invoked.
  - intros Hlen. unfold mineru_batch.
    destruct (Z.ltb_spec 200 (Z.of_nat (length (BatchParams.urls params))));
      [lia|].
    unfold mbind, M_bind. by rewrite mineruRequest_without_key.
  - unfold mineru_batch.
    destruct (Z.ltb_spec 200 (Z.of_nat (length (BatchParams.urls params))));
      [done|].
    unfold mbind, M_bind.
    rewrite mineruRequest_without_key by done. apply requests_invoked.
Qed.

Lemma missing_key_fails_before_http_witness :
  mineruApiKey no_key_config = ""
  /\ mineruRequest no_key_config (@unreachable unit) "/extract/task" POST None []
     = (Thrown (Error "MINERU_API_KEY not set. Add it to your environment."),
        [Invoked "/extract/task" POST None]).
Proof.
  split; [reflexivity|].
  destruct (missing_key_fails_before_http no_key_config
              (fun _ => "") (fun _ => "")) as [Hrequest _]; [reflexivity|].
  apply Hrequest.
Defined.

End ClientFacts.

(* ===================================================================== *)
(** ** Properties of the session map and of the routes *)
(* ===================================================================== *)

Module ServerFacts.
Import Js Server.

Lemma inherited_proto : inherited "__proto__" = true.
Proof. by vm_compute. Qed.

Lemma not_inherited_ne_proto (k : string) :
  inherited k = false -> String.eqb k "__proto__" = false.
Proof.
  intros Hk. destruct (String.eqb_spec k "__proto__") as [->|]; [|done].
  by rewrite inherited_proto in Hk.
Qed.

Lemma get_set_eq {V} (o : gmap string V) (k : string) (v : V) :
  inherited k = false -> get (set o k v) k = Own v.
Proof.
  intros Hk. unfold get, set. rewrite (not_inherited_ne_proto k Hk).
  by rewrite lookup_insert_eq.
Qed.

Lemma get_set_ne {V} (o : gmap string V) (k k' : string) (v : V) :
  k <> k' -> get (set o k v) k' = get o k'.
Proof.
  intros Hne. unfold get, set.
  destruct (String.eqb k "__proto__"); [done|].
  by rewrite lookup_insert_ne.
Qed.

Lemma get_remove_eq {V} (o : gmap string V) (k : string) :
  inherited k = false -> get (remove o k) k = Undefined.
Proof.
  intros Hk. unfold get, remove. rewrite lookup_delete_eq. by rewrite Hk.
Qed.

Lemma get_remove_ne {V} (o : gmap string V) (k k' : string) :
  k <> k' -> get (remove o k) k' = get o k'.
Proof. intros Hne. unfold get, remove. by rewrite lookup_delete_ne. Qed.

(** C2, as stated, fails: [transports[newSessionId] = transport] is a plain
    assignment. Registering transport 2 under the id that transport 1
    holds replaces the entry, and nothing is thrown. *)
Lemma onsessioninitialized_replaces :
  get (onsessioninitialized 1%nat "s1" ∅) "s1" = Own 1%nat
  /\ get (onsessioninitialized 2%nat "s1" (onsessioninitialized 1%nat "s1" ∅)) "s1"
     = Own 2%nat
  /\ get (onsessioninitialized 2%nat "s1" (onsessioninitialized 1%nat "s1" ∅)) "s1"
     <> get (onsessioninitialized 1%nat "s1" ∅) "s1".
Proof. split; [|split]; by vm_compute. Qed.

(** C2 (amended): the session map holds at most one transport per session
    id. For a session id that is non-empty and not the name of a member
    of [Object.prototype] (every UUID is such), registering a transport
    under the id makes the id denote that transport, replacing without
    error whatever entry the id had, and leaves the other ids alone; and
    when a transport whose session id it is closes, the entry is deleted:
    a lookup of the id then finds nothing, other ids being untouched. *)
Theorem session_map_functional (transports : gmap string nat) (id : string)
    (transport : nat) :
  truthy id = true -> inherited id = false ->
  (forall t1 t2 : nat, get transports id = Own t1 -> get transports id = Own t2 ->
                       t1 = t2)
  /\ get (onsessioninitialized transport id transports) id = Own transport
  /\ (forall id', id <> id' ->
        get (onsessioninitialized transport id transports) id' = get transports id')
  /\ get (onclose (Some id) transports) id = Undefined
  /\ lookup_session (onclose (Some id) transports) (Some id) = Undefined
  /\ (forall id', id <> id' ->
        get (onclose (Some id) transports) id' = get transports id').
Proof.
  intros Hid Hown. repeat split.
  - intros t1 t2 H1 H2. congruence.
  - by apply get_set_eq.
  - intros id' Hne. by apply get_set_ne.
  - unfold onclose. simpl. rewrite Hid. by apply get_remove_eq.
  - unfold lookup_session, onclose. simpl. rewrite Hid. by apply get_remove_eq.
  - intros id' Hne. unfold onclose. simpl. rewrite Hid. by apply get_remove_ne.
Qed.

Lemma session_map_functional_witness :
  truthy "0b9f6a52-7c1d-4e0a-9b7e-2f1a5c3d8e44" = true
  /\ inherited "0b9f6a52-7c1d-4e0a-9b7e-2f1a5c3d8e44" = false
  /\ get (onsessioninitialized 2%nat "0b9f6a52-7c1d-4e0a-9b7e-2f1a5c3d8e44"
            {[ "0b9f6a52-7c1d-4e0a-9b7e-2f1a5c3d8e44" := 1%nat ]})
         "0b9f6a52-7c1d-4e0a-9b7e-2f1a5c3d8e44" = Own 2%nat
  /\ get (onclose (Some "0b9f6a52-7c1d-4e0a-9b7e-2f1a5c3d8e44")
            {[ "0b9f6a52-7c1d-4e0a-9b7e-2f1a5c3d8e44" := 1%nat ]})
         "0b9f6a52-7c1d-4e0a-9b7e-2f1a5c3d8e44" = Undefined.
Proof.
  split; [reflexivity|]. split; [reflexivity|].
  destruct (session_map_functional
              {[ "0b9f6a52-7c1d-4e0a-9b7e-2f1a5c3d8e44" := 1%nat ]}
              "0b9f6a52-7c1d-4e0a-9b7e-2f1a5c3d8e44" 2%nat)
    as (_ & Hreg & _ & Hclose & _); [reflexivity|reflexivity|].
  split; [exact Hreg|exact Hclose].
Defined.

Section Routes.
Context `{Sdk}.

(** A request whose session id finds nothing in the map is answered 400
    by each of the three routes, unless it is a POST without session id
    that initialises; the state is then left as it was. *)
Lemma route_rejects_unknown (g : State) (req : Request) :
  lookup_session (transports g) (sessionId req) = Undefined ->
  truthy_opt (sessionId req) = true \/ isInitializeRequest (body req) = false ->
  route g req
  = (g, match verb req with POST => BadRequestJson | _ => BadRequestText end).
Proof.
  intros Hlook Hkind. unfold route, post_mcp, get_mcp, delete_mcp.
  rewrite Hlook. destruct (verb req); [|done..].
  destruct Hkind as [-> | ->]; [done|].
  by rewrite andb_false_r.
Qed.

(** X24: a route either runs [transport.handleRequest] once, on the
    transport it reports, or leaves the whole state as it was: a rejected
    request creates nothing and changes nothing. *)
Lemma route_forwards_or_skips (g : State) (req : Request) :
  (exists transport reply,
      (route g req).2 = Handled transport reply
      /\ forwarded (route g req).1 = S (forwarded g))
  \/ ((route g req).1 = g
      /\ forall transport reply, (route g req).2 <> Handled transport reply).
Proof.
  unfold route, post_mcp, get_mcp, delete_mcp.
  destruct (verb req);
    destruct (lookup_session (transports g) (sessionId req)) as [t|k|];
    try (right; by split);
    try (left; unfold forward;
         match goal with |- context [handleRequest ?a ?b ?c ?d ?e] =>
           destruct (handleRequest a b c d e) as [[events t'] reply] end;
         by eexists _, _).
  destruct (negb (truthy_opt (sessionId req)) && isInitializeRequest (body req)).
  - left. unfold forward.
    match goal with |- context [handleRequest ?a ?b ?c ?d ?e] =>
      destruct (handleRequest a b c d e) as [[events t'] reply] end.
    by eexists _, _.
  - right. by split.
Qed.

(** C1 (amended): a POST without session id (absent or empty) whose body
    is an initialize request creates a new transport, connects a new
    server to it and hands it the request; the session map is changed by
    the callbacks the SDK runs meanwhile, so that when the SDK announces
    the session id [id] the map sends [id] to the new transport. A POST
    that supplies a session id for which the map has nothing is not
    initialised, whatever its kind: it is answered 400 and nothing
    changes. *)
Theorem post_initialize (g : State) (req : Request) :
  (truthy_opt (sessionId req) = false ->
   isInitializeRequest (body req) = true ->
   let transport := next g in
   let r := handleRequest (verb req) (sessionId req) (body req) (Some (body req))
                          (connect (new_transport transport)) in
   post_mcp g req
   = ({| transports := fold_left (fire transport) r.1.1 (transports g);
         heap := <[transport := r.1.2]>
                   (<[transport := connect (new_transport transport)]> (heap g));
         next := S (next g);
         forwarded := S (forwarded g) |},
      Handled transport r.2)
   /\ forall id, r.1.1 = [SessionInitialized id] -> inherited id = false ->
        get (transports (post_mcp g req).1) id = Own transport)
  /\ (truthy_opt (sessionId req) = true ->
      lookup_session (transports g) (sessionId req) = Undefined ->
      post_mcp g req = (g, BadRequestJson)).
Proof.
  split.
  - intros Hsid Hinit transport r.
    assert (post_mcp g req
            = ({| transports := fold_left (fire transport) r.1.1 (transports g);
                  heap := <[transport := r.1.2]>
                            (<[transport := connect (new_transport transport)]>
                               (heap g));
                  next := S (next g);
                  forwarded := S (forwarded g) |},
               Handled transport r.2)) as Hpost.
    { unfold post_mcp, lookup_session. rewrite Hsid, Hinit. simpl.
      unfold forward. simpl. rewrite fn_lookup_insert.
      subst r transport.
      by destruct (handleRequest _ _ _ _ _) as [[events t'] reply]. }
    split; [done|].
    intros id Hevents Hown. rewrite Hpost. simpl. rewrite Hevents. simpl.
    by apply get_set_eq.
  - intros Hsid Hlook. unfold post_mcp. rewrite Hlook, Hsid. done.
Qed.

End Routes.

(** A session on the stand-in SDK: it is registered by its initialize
    request, serves a call, is removed by its DELETE, after which its id is
    answered 400. *)
Example session_lifecycle :
  let g1 := serve initial [Samples.initialize_request None] in
  let g2 := serve g1 [Samples.call_request POST (Some "session-0")] in
  let g3 := serve g2 [Samples.call_request DELETE (Some "session-0")] in
  get (transports g1) "session-0" = Own 0%nat
  /\ (route g1 (Samples.call_request POST (Some "session-0"))).2
     = Handled 0%nat "result"
  /\ get (transports g2) "session-0" = Own 0%nat
  /\ get (transports g3) "session-0" = Undefined
  /\ (route g3 (Samples.call_request POST (Some "session-0"))).2 = BadRequestJson.
Proof. repeat split. Qed.

(** C1, as stated, fails when a session id is supplied but unknown: the
    second branch of the route requires [!sessionId], so the initialize
    request is answered 400, no transport is created and the session map
    stays empty. *)
Lemma post_initialize_unknown_session :
  lookup_session (transports initial) (Some "unknown-session") = Undefined
  /\ isInitializeRequest (body (Samples.initialize_request (Some "unknown-session")))
     = true
  /\ post_mcp initial (Samples.initialize_request (Some "unknown-session"))
     = (initial, BadRequestJson)
  /\ transports
       (post_mcp initial (Samples.initialize_request (Some "unknown-session"))).1
     = ∅
  /\ ~ exists transport reply,
        (post_mcp initial (Samples.initialize_request (Some "unknown-session"))).2
        = Handled transport reply.
Proof. repeat split. intros (transport & reply & Heq). discriminate Heq. Qed.

Lemma post_initialize_witness :
  truthy_opt (sessionId (Samples.initialize_request None)) = false
  /\ isInitializeRequest (body (Samples.initialize_request None)) = true
  /\ (post_mcp initial (Samples.initialize_request None)).2
     = Handled 0%nat "initialized"
  /\ get (transports (post_mcp initial (Samples.initialize_request None)).1)
         "session-0" = Own 0%nat
  /\ truthy_opt (sessionId (Samples.initialize_request (Some "unknown-session")))
     = true
  /\ lookup_session (transports initial) (Some "unknown-session") = Undefined
  /\ post_mcp initial (Samples.initialize_request (Some "unknown-session"))
     = (initial, BadRequestJson).
Proof.
  destruct (post_initialize initial (Samples.initialize_request None))
    as [Hcreate _].
  destruct (Hcreate eq_refl eq_refl) as [Hpost Hreg].
  destruct (post_initialize initial
              (Samples.initialize_request (Some "unknown-session")))
    as [_ Hreject].
  split; [reflexivity|]. split; [reflexivity|].
  split; [by rewrite Hpost|].
  split; [apply Hreg; reflexivity|].
  split; [reflexivity|]. split; [reflexivity|].
  apply Hreject; reflexivity.
Defined.

(** C3 (the code departs from it): the session id ["constructor"] is in
    no session map, yet [transports["constructor"]] evaluates to
    [Object.prototype.constructor], which is truthy. Each route then takes
    the branch for a known session and calls [handleRequest] on an object
    that has no such method: the route's promise rejects with a
    [TypeError] and no 400 response is sent. The state is not changed and
    no transport is reached. Every other unknown session id is answered
    400 ([route_rejects_unknown]). *)
Theorem inherited_session_id_not_rejected :
  forall (sdk : Sdk) (g : State) (v : Verb) (b : Body),
    transports g !! "constructor" = None ->
    get (transports g) "constructor" = Proto "constructor"
    /\ route g {| verb := v; sessionId := Some "constructor"; body := b |}
       = (g, TypeError "transport.handleRequest is not a function").
Proof.
  intros sdk g v b Hnone.
  assert (get (transports g) "constructor" = Proto "constructor") as Hget.
  { unfold get. by rewrite Hnone. }
  split; [done|].
  unfold route, post_mcp, get_mcp, delete_mcp, lookup_session. simpl.
  rewrite Hget. by destruct v.
Qed.

Lemma inherited_session_id_not_rejected_witness :
  transports initial !! "constructor" = None
  /\ route initial (Samples.call_request POST (Some "constructor"))
     = (initial, TypeError "transport.handleRequest is not a function")
  /\ route initial (Samples.call_request GET (Some "constructor"))
     = (initial, TypeError "transport.handleRequest is not a function")
  /\ route initial (Samples.call_request DELETE (Some "constructor"))
     = (initial, TypeError "transport.handleRequest is not a function").
Proof.
  split; [reflexivity|].
  split; [|split];
    apply (inherited_session_id_not_rejected stub_sdk initial _ "tools/call");
    reflexivity.
Defined.

End ServerFacts.

(* ===================================================================== *)
(** ** Further properties of the batch formatter *)
(* ===================================================================== *)

Module FormatMore.
Import Js Format Spec Samples.

Lemma slice_take_drop {A} (l : list A) (limit offset : Z) :
  0 <= offset -> 0 <= limit ->
  slice l offset (offset + limit)
  = take (Z.to_nat limit) (drop (Z.to_nat offset) l).
Proof.
  intros Ho Hl. unfold slice.
  destruct (Z.ltb_spec offset 0) as [?|_]; [lia|].
  destruct (Z.ltb_spec (offset + limit) 0) as [?|_]; [lia|].
  set (len := Z.of_nat (length l)).
  destruct (Z.le_gt_cases len offset) as [Hge|Hlt].
  - rewrite !(drop_ge l) by (subst len; lia). by rewrite !take_nil.
  - rewrite (Z.min_l offset len) by lia.
    destruct (Z.le_gt_cases (offset + limit) len) as [Hin|Hout].
    + rewrite Z.min_l by done. f_equal. lia.
    + rewrite Z.min_r by lia.
      rewrite !take_ge; [done| |]; rewrite length_drop; subst len; lia.
Qed.

Lemma slice_length {A} (l : list A) (limit offset : Z) :
  0 <= limit ->
  (length (slice l offset (offset + limit)) <= Z.to_nat limit)%nat.
Proof.
  intros Hl. unfold slice. rewrite length_take, length_drop.
  destruct (Z.ltb_spec offset 0); destruct (Z.ltb_spec (offset + limit) 0); lia.
Qed.

Lemma slice_sublist {A} (l : list A) (start end_ : Z) :
  slice l start end_ `sublist_of` l.
Proof.
  unfold slice. etrans; [apply sublist_take|apply sublist_drop].
Qed.

(** X1: a page never lists more than [limit] results: for every batch
    (of fewer than 2^32 results) and all integers [0 <= limit <= 2^52] and
    [-2^52 <= offset <= 2^52], negative offsets included, the concise
    batch text consists of the header, the lines of some results taken
    in order from the batch, at most [limit] of them, and the
    continuation hint. *)
Theorem formatConciseBatch_page_bound (batch : BatchStatus) (limit offset : Z) :
  Z.of_nat (length (extract_result batch)) < 2 ^ 32 ->
  0 <= limit <= 2 ^ 52 -> - 2 ^ 52 <= offset <= 2 ^ 52 ->
  exists results : list BatchItem,
    results `sublist_of` extract_result batch
    /\ (length results <= Z.to_nat limit)%nat
    /\ formatConciseBatch batch limit offset
       = join nl ([batch_header batch] ++ (item_line <$> results)
                  ++ continuation_hint
                       (Z.of_nat (length (extract_result batch))) limit offset).
Proof.
  intros HN Hl Ho.
  exists (slice (extract_result batch) offset (offset + limit)).
  split; [apply slice_sublist|]. split; [apply slice_length; lia|].
  apply FormatFacts.formatConciseBatch_lines.
Qed.

Lemma formatConciseBatch_page_bound_witness :
  Z.of_nat (length (extract_result sample_batch)) < 2 ^ 32
  /\ 0 <= 2 <= 2 ^ 52 /\ - 2 ^ 52 <= -1 <= 2 ^ 52
  /\ exists results : list BatchItem,
       results `sublist_of` extract_result sample_batch
       /\ (length results <= Z.to_nat 2)%nat
       /\ formatConciseBatch sample_batch 2 (-1)
          = join nl ([batch_header sample_batch] ++ (item_line <$> results)
                     ++ continuation_hint
                          (Z.of_nat (length (extract_result sample_batch)))
                          2 (-1)).
Proof.
  split; [simpl; lia|]. split; [lia|]. split; [lia|].
  apply (formatConciseBatch_page_bound sample_batch 2 (-1)); simpl; lia.
Defined.

Lemma pages_take {A} (l : list A) (limit : Z) (n : nat) :
  0 < limit ->
  mjoin (pages l limit n) = take (Z.to_nat (Z.of_nat n * limit)) l.
Proof.
  intros Hl. unfold pages. induction n as [|n IH].
  - simpl. by rewrite take_0.
  - rewrite seq_S, fmap_app, join_app, IH. simpl. rewrite app_nil_r.
    rewrite (slice_take_drop l limit (Z.of_nat n * limit)) by lia.
    rewrite take_take_drop. f_equal. lia.
Qed.

Lemma pages_lookup {A} (l : list A) (limit : Z) (n k : nat) (page : list A) :
  pages l limit n !! k = Some page ->
  (k < n)%nat
  /\ page = slice l (Z.of_nat k * limit) (Z.of_nat k * limit + limit).
Proof.
  unfold pages. rewrite list_lookup_fmap.
  destruct (seq 0 n !! k) as [k'|] eqn:Hk; [|done].
  apply lookup_seq in Hk as [-> Hlt]. simpl. by intros [= <-].
Qed.

(** X2: paging is exhaustive and without repetition: for every integer
    [limit > 0], when [n] pages reach the end of the batch
    ([N <= n limit <= 2^52]), the results listed by [formatConciseBatch]
    at the offsets [0, limit, 2 limit, ...] of these pages, put end to
    end, are the result sequence of the batch itself, each result once
    and in its original order. *)
Theorem formatConciseBatch_pages_exhaustive (batch : BatchStatus) (limit : Z)
    (n : nat) :
  0 < limit ->
  Z.of_nat (length (extract_result batch)) <= Z.of_nat n * limit <= 2 ^ 52 ->
  exists listed : list (list BatchItem),
    length listed = n
    /\ mjoin listed = extract_result batch
    /\ forall (k : nat) (page : list BatchItem),
         listed !! k = Some page ->
         formatConciseBatch batch limit (Z.of_nat k * limit)
         = join nl ([batch_header batch] ++ (item_line <$> page)
                    ++ continuation_hint
                         (Z.of_nat (length (extract_result batch))) limit
                         (Z.of_nat k * limit)).
Proof.
  intros Hl [HN Hbound].
  exists (pages (extract_result batch) limit n). split; [|split].
  - unfold pages. by rewrite length_fmap, length_seq.
  - rewrite pages_take by done. apply take_ge. lia.
  - intros k page Hk. apply pages_lookup in Hk as [_ ->].
    apply FormatFacts.formatConciseBatch_lines.
Qed.

Lemma formatConciseBatch_pages_exhaustive_witness :
  0 < 2
  /\ Z.of_nat (length (extract_result sample_batch)) <= Z.of_nat 2 * 2 <= 2 ^ 52
  /\ exists listed : list (list BatchItem),
       length listed = 2%nat /\ mjoin listed = extract_result sample_batch.
Proof.
  split; [lia|]. split; [simpl; lia|].
  destruct (formatConciseBatch_pages_exhaustive sample_batch 2 2)
    as (listed & Hlen & Hall & _); [lia|simpl; lia|].
  exists listed. by split.
Defined.

Lemma paging_run (batch : BatchStatus) (limit : Z) (fuel : nat) (offset : Z) :
  0 < limit ->
  Z.of_nat (length (extract_result batch)) - offset <= Z.of_nat fuel * limit ->
  exists n : nat,
    (1 <= n <= S fuel)%nat
    /\ paging (S fuel) batch limit offset
       = Some ((fun k : nat =>
                  formatConciseBatch batch limit (offset + Z.of_nat k * limit))
               <$> seq 0 n)
    /\ (forall k : nat, (S k < n)%nat ->
          offset + Z.of_nat k * limit + limit
          < Z.of_nat (length (extract_result batch)))
    /\ Z.of_nat (length (extract_result batch)) <= offset + Z.of_nat n * limit.
Proof.
  intros Hl. revert offset. induction fuel as [|fuel IH]; intros offset Hn.
  - exists 1%nat. simpl. unfold next_offset.
    destruct (Z.ltb_spec (offset + limit)
                (Z.of_nat (length (extract_result batch)))); [lia|].
    rewrite Z.add_0_r.
    split; [lia|]. split; [done|]. split; [intros k Hk; lia|lia].
  - change (paging (S (S fuel)) batch limit offset)
      with (match next_offset batch limit offset with
            | None => Some [formatConciseBatch batch limit offset]
            | Some offset' =>
                (formatConciseBatch batch limit offset ::.)
                  <$> paging (S fuel) batch limit offset'
            end).
    unfold next_offset.
    destruct (Z.ltb_spec (offset + limit)
                (Z.of_nat (length (extract_result batch)))) as [Hmore|Hlast].
    + destruct (IH (offset + limit)) as (n & Hn1 & -> & Hhints & Hend); [lia|].
      exists (S n). split; [lia|]. split; [|split].
      * simpl. rewrite Z.add_0_r. f_equal. f_equal.
        rewrite <- fmap_S_seq, <- list_fmap_compose.
        apply list_fmap_ext. intros i k _. simpl. f_equal. lia.
      * intros [|k] Hk; [lia|]. specialize (Hhints k). lia.
      * lia.
    + exists 1%nat. simpl. rewrite Z.add_0_r.
      split; [lia|]. split; [done|]. split; [intros k Hk; lia|lia].
Qed.

(** X3: with a positive limit the continuation hints lead to the end:
    for integers [0 < limit <= 2^52] and [0 <= offset <= 2^52] and a batch
    of [N < 2^32] results, a caller that follows the hints finishes
    within [fuel + 1] calls when [N - offset <= fuel * limit]. The texts
    obtained are those [formatConciseBatch] prints at the offsets
    [offset, offset + limit, ...]: each but the last ends with the hint
    that advertises the offset of the next one, and the last one has no
    hint. *)
Theorem paging_follows_hints (batch : BatchStatus) (limit : Z) (fuel : nat)
    (offset : Z) :
  Z.of_nat (length (extract_result batch)) < 2 ^ 32 ->
  0 < limit <= 2 ^ 52 -> 0 <= offset <= 2 ^ 52 ->
  Z.of_nat (length (extract_result batch)) - offset <= Z.of_nat fuel * limit ->
  exists n : nat,
    (1 <= n <= S fuel)%nat
    /\ paging (S fuel) batch limit offset
       = Some ((fun k : nat =>
                  formatConciseBatch batch limit (offset + Z.of_nat k * limit))
               <$> seq 0 n)
    /\ forall k : nat, (k < n)%nat ->
         formatConciseBatch batch limit (offset + Z.of_nat k * limit)
         = join nl
             ([batch_header batch]
              ++ (item_line <$> clamped_slice (extract_result batch) limit
                                  (offset + Z.of_nat k * limit))
              ++ (if decide (S k = n) then []
                  else ["[+" +:+ num (Z.of_nat (length (extract_result batch))
                                       - (offset + Z.of_nat k * limit) - limit)
                        +:+ " more, use offset="
                        +:+ num (offset + Z.of_nat (S k) * limit) +:+ "]"])).
Proof.
  intros HN Hl Ho Hfuel.
  destruct (paging_run batch limit fuel offset) as (n & Hn & Hrun & Hhints & Hend);
    [lia|done|].
  exists n. split; [done|]. split; [done|].
  intros k Hk. rewrite FormatFacts.formatConciseBatch_lines.
  rewrite FormatFacts.slice_clamped by lia.
  do 3 f_equal. unfold continuation_hint.
  destruct (decide (S k = n)) as [<-|Hne].
  - by rewrite bool_decide_eq_false_2 by lia.
  - rewrite bool_decide_eq_true_2 by (apply Hhints; lia).
    do 5 f_equal. f_equal. lia.
Qed.

Lemma paging_follows_hints_witness :
  Z.of_nat (length (extract_result sample_batch)) < 2 ^ 32
  /\ 0 < 2 <= 2 ^ 52 /\ 0 <= 0 <= 2 ^ 52
  /\ Z.of_nat (length (extract_result sample_batch)) - 0 <= Z.of_nat 2 * 2
  /\ exists n : nat,
       (1 <= n <= 3)%nat
       /\ paging 3 sample_batch 2 0
          = Some ((fun k : nat =>
                     formatConciseBatch sample_batch 2 (0 + Z.of_nat k * 2))
                  <$> seq 0 n).
Proof.
  split; [simpl; lia|]. split; [lia|]. split; [lia|]. split; [simpl; lia|].
  destruct (paging_follows_hints sample_batch 2 2 0)
    as (n & Hn & Hrun & _); [simpl; lia|lia|lia|simpl; lia|].
  exists n. by split.
Defined.

(** X4: past the end there is nothing to list and nothing to continue
    with: for [limit >= 0] and an offset at or beyond the number of
    results (in particular for an empty batch), the concise batch text is
    the header line alone. *)
Theorem formatConciseBatch_past_end (batch : BatchStatus) (limit offset : Z) :
  0 <= limit -> Z.of_nat (length (extract_result batch)) <= offset ->
  formatConciseBatch batch limit offset = batch_header batch.
Proof.
  intros Hl Ho. rewrite FormatFacts.formatConciseBatch_lines.
  rewrite slice_take_drop by lia.
  rewrite drop_ge by lia. rewrite take_nil.
  unfold continuation_hint. by rewrite bool_decide_eq_false_2 by lia.
Qed.

Lemma formatConciseBatch_past_end_witness :
  0 <= 10 /\ Z.of_nat (length (extract_result sample_batch)) <= 3
  /\ formatConciseBatch sample_batch 10 3 = batch_header sample_batch.
Proof.
  split; [lia|]. split; [simpl; lia|].
  apply (formatConciseBatch_past_end sample_batch 10 3); simpl; lia.
Defined.

Lemma slice_fmap {A B} (f : A -> B) (l : list A) (start end_ : Z) :
  slice (f <$> l) start end_ = f <$> slice l start end_.
Proof. unfold slice. by rewrite length_fmap, fmap_take, fmap_drop. Qed.

Lemma done_count_without_error (l : list BatchItem) :
  done_count (without_error <$> l) = done_count l.
Proof.
  unfold done_count. f_equal.
  induction l as [|r l IH]; [done|].
  rewrite fmap_cons, !filter_cons. simpl.
  destruct (decide (item_state r = "done")); simpl; by rewrite IH.
Qed.

(** X5: the concise batch text never shows an entry's error message or
    data id: erasing [err_msg] and [data_id] from every entry leaves the
    text unchanged, for every limit and offset. *)
Theorem formatConciseBatch_hides_errors (id : string) (l : list BatchItem)
    (limit offset : Z) :
  formatConciseBatch {| batch_id := id; extract_result := without_error <$> l |}
                     limit offset
  = formatConciseBatch {| batch_id := id; extract_result := l |} limit offset.
Proof.
  rewrite !FormatFacts.formatConciseBatch_lines. unfold batch_header. simpl.
  rewrite done_count_without_error, length_fmap, slice_fmap.
  by rewrite <- list_fmap_compose.
Qed.

End FormatMore.

(* ===================================================================== *)
(** ** Further properties of the API client and of the tool handlers *)
(* ===================================================================== *)

Module ClientMore.
Import Js Format Client Spec Samples Startup.
#[local] Set Warnings "-clear-no-such-hyp".

Ltac run_request Hkey :=
  unfold mineruRequest, apiKey; rewrite Hkey; simpl;
  unfold mbind, M_bind, try_catch, await_axios, mbind, M_bind, record.

Lemma requests_app (t1 t2 : list Step) : requests (t1 ++ t2) = requests t1 ++ requests t2.
Proof. unfold requests. apply omap_app. Qed.

Lemma invocations_app (t1 t2 : list Step) :
  invocations (t1 ++ t2) = (invocations t1 + invocations t2)%nat.
Proof. unfold invocations. by rewrite List.filter_app, length_app. Qed.

Lemma strict_ne_zero_false (v : value) :
  strict_ne_zero v = false <-> v = VNumber 0.
Proof.
  destruct v as [|s|n|k]; simpl; try (split; [discriminate|discriminate]).
  destruct (Z.eqb_spec n 0) as [->|Hn]; simpl.
  - done.
  - split; [discriminate|]. intros [= ->]. done.
Qed.

(** X6: a 2xx response is a success only for the numeric envelope code 0:
    then the payload is returned after exactly one request; for every
    other code (the string ["0"] and a missing code included) the call
    throws an [Error] and the payload is not returned. *)
Theorem mineruRequest_success_iff_code_zero (config : Config) {T} (axios : Axios T)
    (endpoint : string) (method : Method) (data : option Json) (trace : list Step)
    (result : Envelope) (payload : T) :
  truthy (mineruApiKey config) = true ->
  axios {| method := method;
           url := baseUrl config +:+ endpoint;
           headers := [("Content-Type", "application/json");
                       ("Authorization", "Bearer " +:+ apiKey config)];
           data := data |} = Fulfilled result payload ->
  (code result = VNumber 0 ->
   mineruRequest config axios endpoint method data trace
   = (Returned payload,
      trace ++ [Invoked endpoint method data;
                Sent {| method := method;
                        url := baseUrl config +:+ endpoint;
                        headers := [("Content-Type", "application/json");
                                    ("Authorization", "Bearer " +:+ apiKey config)];
                        data := data |}]))
  /\ (code result <> VNumber 0 ->
      exists message,
        (mineruRequest config axios endpoint method data trace).1
        = Thrown (Error message)).
Proof.
  intros Hkey Hax. unfold apiKey in Hax. split.
  - intros Hcode. run_request Hkey. rewrite Hax. simpl. rewrite Hcode. simpl.
    by rewrite <- app_assoc.
  - intros Hcode. run_request Hkey. rewrite Hax. simpl.
    destruct (strict_ne_zero (code result)) eqn:Hne.
    + by eexists.
    + by apply strict_ne_zero_false in Hne.
Qed.

Lemma mineruRequest_success_iff_code_zero_witness :
  truthy (mineruApiKey sample_config) = true
  /\ mineruRequest sample_config (succeeds sample_status) "/extract/task/t1" GET None []
     = (Returned sample_status,
        [Invoked "/extract/task/t1" GET None;
         Sent {| method := GET;
                 url := "https://mineru.net/api/v4/extract/task/t1";
                 headers := [("Content-Type", "application/json");
                             ("Authorization", "Bearer key-123")];
                 data := None |}]).
Proof.
  split; [reflexivity|].
  destruct (mineruRequest_success_iff_code_zero sample_config
              (succeeds sample_status) "/extract/task/t1" GET None []
              {| code := VNumber 0; msg := VString "ok" |} sample_status)
    as [Hok _]; [reflexivity|reflexivity|].
  apply Hok. reflexivity.
Defined.

(** X7: no retry: with a key configured, one call of [mineruRequest]
    hands exactly one request to [axios], whatever the outcome: a POST or
    GET to the base URL followed by the endpoint, carrying the key as
    bearer token. *)
Theorem mineruRequest_single_request (config : Config) {T} (axios : Axios T)
    (endpoint : string) (method : Method) (data : option Json) (trace : list Step) :
  truthy (mineruApiKey config) = true ->
  requests (mineruRequest config axios endpoint method data trace).2
  = requests trace
    ++ [{| method := method;
           url := baseUrl config +:+ endpoint;
           headers := [("Content-Type", "application/json");
                       ("Authorization", "Bearer " +:+ mineruApiKey config)];
           data := data |}]
  /\ invocations (mineruRequest config axios endpoint method data trace).2
     = S (invocations trace).
Proof.
  intros Hkey. rewrite ClientFacts.mineruRequest_sends by done.
  rewrite !requests_app, !invocations_app. split; [done|].
  unfold invocations. simpl. lia.
Qed.

Lemma mineruRequest_single_request_witness :
  truthy (mineruApiKey sample_config) = true
  /\ requests (mineruRequest sample_config (@unreachable unit) "/extract/task"
                 POST None []).2
     = requests []
       ++ [{| method := POST;
              url := baseUrl sample_config +:+ "/extract/task";
              headers := [("Content-Type", "application/json");
                          ("Authorization", "Bearer " +:+ mineruApiKey sample_config)];
              data := None |}].
Proof.
  split; [reflexivity|].
  apply (mineruRequest_single_request sample_config (@unreachable unit)
           "/extract/task" POST None []). reflexivity.
Defined.

(** X8: a failed HTTP exchange whose body carries no truthy [code]
    (no response at all, no body, or code absent, empty or 0) is reported
    as ["HTTP <status>: <axios message>"], the status reading
    ["undefined"] when there was no response. *)
Theorem mineruRequest_transport_error (config : Config) {T} (axios : Axios T)
    (endpoint : string) (method : Method) (data : option Json) (trace : list Step)
    (response : option ErrorResponse) (message : string) :
  truthy (mineruApiKey config) = true ->
  axios {| method := method;
           url := baseUrl config +:+ endpoint;
           headers := [("Content-Type", "application/json");
                       ("Authorization", "Bearer " +:+ apiKey config)];
           data := data |} = Rejected (AxiosError response message) ->
  to_boolean (response_field code response) = false ->
  (mineruRequest config axios endpoint method data trace).1
  = Thrown (Error ("HTTP "
                   +:+ match response with
                       | Some r => num (status r)
                       | None => "undefined"
                       end
                   +:+ ": " +:+ message)).
Proof.
  intros Hkey Hax Hcode. unfold apiKey in Hax. run_request Hkey.
  rewrite Hax. simpl. rewrite Hcode. by destruct response.
Qed.

Lemma mineruRequest_transport_error_witness :
  truthy (mineruApiKey sample_config) = true
  /\ to_boolean (response_field code None) = false
  /\ (mineruRequest sample_config (@unreachable unit) "/extract/task" POST None []).1
     = Thrown (Error "HTTP undefined: connect ECONNREFUSED").
Proof.
  split; [reflexivity|]. split; [reflexivity|].
  apply (mineruRequest_transport_error sample_config (@unreachable unit)
           "/extract/task" POST None [] None "connect ECONNREFUSED");
    reflexivity.
Defined.

(** X9: an error thrown by [axios] that is not an [AxiosError] leaves
    [mineruRequest] unchanged: the [catch] block rethrows it. *)
Theorem mineruRequest_rethrows (config : Config) {T} (axios : Axios T)
    (endpoint : string) (method : Method) (data : option Json) (trace : list Step)
    (message : string) :
  truthy (mineruApiKey config) = true ->
  axios {| method := method;
           url := baseUrl config +:+ endpoint;
           headers := [("Content-Type", "application/json");
                       ("Authorization", "Bearer " +:+ apiKey config)];
           data := data |} = Rejected (Error message) ->
  (mineruRequest config axios endpoint method data trace).1
  = Thrown (Error message).
Proof.
  intros Hkey Hax. unfold apiKey in Hax. run_request Hkey. by rewrite Hax.
Qed.

Lemma mineruRequest_rethrows_witness :
  truthy (mineruApiKey sample_config) = true
  /\ (mineruRequest sample_config (@broken unit) "/extract/task" POST None []).1
     = Thrown (Error "socket hang up").
Proof.
  split; [reflexivity|].
  apply (mineruRequest_rethrows sample_config (@broken unit)
           "/extract/task" POST None [] "socket hang up"); reflexivity.
Defined.

Lemma to_boolean_strict (c : value) :
  to_boolean c = true -> strict_ne_zero c = true.
Proof. by destruct c. Qed.

Lemma known_code_wins (c msg fallback : value) (m : string) :
  ERROR_MESSAGES !! text c = Some m ->
  text (or_else (or_else (get_value ERROR_MESSAGES (text c)) msg) fallback) = m
  /\ text (or_else (get_value ERROR_MESSAGES (text c)) msg) = m.
Proof.
  intros Hm. unfold get_value, get. rewrite Hm. unfold or_else. simpl.
  rewrite (ClientFacts.ERROR_MESSAGES_truthy _ _ Hm). simpl.
  by rewrite (ClientFacts.ERROR_MESSAGES_truthy _ _ Hm).
Qed.

(** X10: for a code of the table the table's message wins over whatever
    message the service sent, and both error paths agree: a 2xx envelope
    and the body of a failed response with the same known code throw the
    same ["MinerU error <code>: <table message>"]. *)
Theorem known_code_message (config : Config) {T} (axios : Axios T)
    (endpoint : string) (method : Method) (data : option Json) (trace : list Step)
    (c : value) (m : string) :
  truthy (mineruApiKey config) = true ->
  ERROR_MESSAGES !! text c = Some m ->
  to_boolean c = true ->
  (forall (service_msg : value) (payload : T),
      axios {| method := method;
               url := baseUrl config +:+ endpoint;
               headers := [("Content-Type", "application/json");
                           ("Authorization", "Bearer " +:+ apiKey config)];
               data := data |}
      = Fulfilled {| code := c; msg := service_msg |} payload ->
      (mineruRequest config axios endpoint method data trace).1
      = Thrown (Error ("MinerU error " +:+ text c +:+ ": " +:+ m)))
  /\ (forall (service_msg : value) (http_status : Z) (message : string),
        axios {| method := method;
                 url := baseUrl config +:+ endpoint;
                 headers := [("Content-Type", "application/json");
                             ("Authorization", "Bearer " +:+ apiKey config)];
                 data := data |}
        = Rejected (AxiosError
                      (Some {| status := http_status;
                               response_data :=
                                 Some {| code := c; msg := service_msg |} |})
                      message) ->
        (mineruRequest config axios endpoint method data trace).1
        = Thrown (Error ("MinerU error " +:+ text c +:+ ": " +:+ m))).
Proof.
  intros Hkey Hm Hc. split.
  - intros service_msg payload Hax. unfold apiKey in Hax. run_request Hkey.
    rewrite Hax. simpl. rewrite (to_boolean_strict c Hc). simpl.
    by destruct (known_code_wins c service_msg (VString "Unknown error") m Hm)
      as [-> _].
  - intros service_msg http_status message Hax. unfold apiKey in Hax.
    run_request Hkey. rewrite Hax. simpl. rewrite Hc.
    by destruct (known_code_wins c service_msg VUndefined m Hm) as [_ ->].
Qed.

Lemma known_code_message_witness :
  truthy (mineruApiKey sample_config) = true
  /\ ERROR_MESSAGES !! text (VString "A0202") = Some "Token error. Check your API key."
  /\ to_boolean (VString "A0202") = true
  /\ (mineruRequest sample_config (@unauthorized unit) "/extract/task" POST None []).1
     = Thrown (Error "MinerU error A0202: Token error. Check your API key.").
Proof.
  split; [reflexivity|]. split; [reflexivity|]. split; [reflexivity|].
  destruct (known_code_message sample_config (@unauthorized unit)
              "/extract/task" POST None [] (VString "A0202")
              "Token error. Check your API key.")
    as [_ Hfailed]; [reflexivity|reflexivity|reflexivity|].
  apply (Hfailed (VString "unauthorized") 401
                 "Request failed with status code 401"). reflexivity.
Defined.

Lemma mineruRequest_returns (config : Config) {T} (axios : Axios T)
    (endpoint : string) (method : Method) (data : option Json) (trace : list Step)
    (ok : Envelope) (payload : T) :
  truthy (mineruApiKey config) = true ->
  (forall req, axios req = Fulfilled ok payload) ->
  code ok = VNumber 0 ->
  mineruRequest config axios endpoint method data trace
  = (Returned payload,
     trace ++ [Invoked endpoint method data;
               Sent {| method := method;
                       url := baseUrl config +:+ endpoint;
                       headers := [("Content-Type", "application/json");
                                   ("Authorization", "Bearer " +:+ apiKey config)];
                       data := data |}]).
Proof.
  intros Hkey Hax Hcode. run_request Hkey. rewrite Hax. simpl. rewrite Hcode.
  simpl. by rewrite <- app_assoc.
Qed.

Lemma assign_if_app (cond : bool) (key : string) (v : Json)
    (requestData : list (string * Json)) :
  assign_if cond key v requestData
  = requestData ++ (if cond then [(key, v)] else []).
Proof. destruct cond; simpl; [done|by rewrite app_nil_r]. Qed.

Lemma assign_flag_app (key : string) (o : option bool)
    (requestData : list (string * Json)) :
  assign_flag key o requestData
  = requestData ++ (match o with Some b => [(key, JBool b)] | None => [] end).
Proof. destruct o; simpl; [done|by rewrite app_nil_r]. Qed.

(** X11: a batch of at most 200 URLs (200 itself and the empty list
    included) is submitted in one POST to [/extract/task/batch] whose body
    starts with the [files] array, one [{ url }] object per URL in the
    order given, and the [model_version] (the requested model, else the
    default); on success the handler reports the batch id and the number
    of files queued. *)
Theorem mineru_batch_submits (config : Config) (axios : Axios BatchResponse.t)
    (params : BatchParams.t) (trace : list Step)
    (ok : Envelope) (payload : BatchResponse.t) :
  (length (BatchParams.urls params) <= 200)%nat ->
  truthy (mineruApiKey config) = true ->
  (forall req, axios req = Fulfilled ok payload) ->
  code ok = VNumber 0 ->
  exists rest : list (string * Json),
    let body :=
      JObject
        (("files",
          JArray ((fun url => JObject [("url", JString url)])
                    <$> BatchParams.urls params))
         :: ("model_version",
             JString (match BatchParams.model params with
                      | Some m => model_text m
                      | None => defaultModel config
                      end))
         :: rest) in
    mineru_batch config axios params trace
    = (Returned ("Batch created: " +:+ BatchResponse.batch_id payload +:+ nl
                 +:+ num (Z.of_nat (length (BatchParams.urls params)))
                 +:+ " files queued." +:+ nl
                 +:+ "Use mineru_batch_status to check progress."),
       trace ++ [Invoked "/extract/task/batch" POST (Some body);
                 Sent {| method := POST;
                         url := baseUrl config +:+ "/extract/task/batch";
                         headers := [("Content-Type", "application/json");
                                     ("Authorization",
                                      "Bearer " +:+ mineruApiKey config)];
                         data := Some body |}]).
Proof.
  intros Hlen Hkey Hax Hcode. unfold mineru_batch.
  destruct (Z.ltb_spec 200 (Z.of_nat (length (BatchParams.urls params))));
    [lia|].
  rewrite !assign_if_app, !assign_flag_app, <- !app_assoc. simpl.
  eexists. unfold mbind, M_bind.
  rewrite (mineruRequest_returns config axios _ _ _ _ ok payload Hkey Hax Hcode).
  reflexivity.
Qed.

Lemma mineru_batch_submits_witness :
  (length (BatchParams.urls (batch_of (replicate 200 "https://example.com/a.pdf")))
   <= 200)%nat
  /\ truthy (mineruApiKey sample_config) = true
  /\ exists trace',
       mineru_batch sample_config
         (succeeds {| BatchResponse.batch_id := "b1" |})
         (batch_of (replicate 200 "https://example.com/a.pdf")) []
       = (Returned ("Batch created: b1" +:+ nl +:+ "200 files queued." +:+ nl
                    +:+ "Use mineru_batch_status to check progress."),
          trace').
Proof.
  split; [vm_compute; lia|]. split; [reflexivity|].
  destruct (mineru_batch_submits sample_config
              (succeeds {| BatchResponse.batch_id := "b1" |})
              (batch_of (replicate 200 "https://example.com/a.pdf")) []
              {| code := VNumber 0; msg := VString "ok" |}
              {| BatchResponse.batch_id := "b1" |})
    as [rest Hrun]; [vm_compute; lia|reflexivity|reflexivity|reflexivity|].
  eexists. exact Hrun.
Defined.

(** X12: [mineru_status] in the concise format: one GET without body to
    [/extract/task/<task_id>], and on success the concise status text of
    the record the service returned. *)
Theorem mineru_status_concise (config : Config)
    (stringify_status : TaskStatus -> string) (axios : Axios TaskStatus)
    (id : string) (trace : list Step) (ok : Envelope) (status : TaskStatus) :
  truthy (mineruApiKey config) = true ->
  (forall req, axios req = Fulfilled ok status) ->
  code ok = VNumber 0 ->
  mineru_status config stringify_status axios
    {| StatusParams.task_id := id; StatusParams.format := concise |} trace
  = (Returned (formatConciseStatus status),
     trace ++ [Invoked ("/extract/task/" +:+ id) GET None;
               Sent {| method := GET;
                       url := baseUrl config +:+ "/extract/task/" +:+ id;
                       headers := [("Content-Type", "application/json");
                                   ("Authorization",
                                    "Bearer " +:+ mineruApiKey config)];
                       data := None |}]).
Proof.
  intros Hkey Hax Hcode. unfold mineru_status, mbind, M_bind.
  by rewrite (mineruRequest_returns config axios _ _ _ _ ok status Hkey Hax Hcode).
Qed.

Lemma mineru_status_concise_witness :
  truthy (mineruApiKey sample_config) = true
  /\ (mineru_status sample_config (fun _ => "") (succeeds sample_status)
        {| StatusParams.task_id := "t1"; StatusParams.format := concise |} []).1
     = Returned "running | t1 | 3/10 pages".
Proof.
  split; [reflexivity|].
  rewrite (mineru_status_concise sample_config (fun _ => "")
             (succeeds sample_status) "t1" []
             {| code := VNumber 0; msg := VString "ok" |} sample_status);
    reflexivity.
Defined.

(** X13: [mineru_batch_status] in the concise format pages with
    [limit = 10] and [offset = 0] when they are not given, and for
    integers with [0 <= offset <= 2^52], [limit <= 2^52] and
    [0 <= offset + limit] (on which the arithmetic is exact) returns the
    header, the entries of the clamped slice and the continuation hint of
    the batch the service returned. *)
Theorem mineru_batch_status_page (config : Config)
    (stringify_batch : BatchStatus -> string) (axios : Axios BatchStatus)
    (id : string) (limit offset : option Z) (trace : list Step)
    (ok : Envelope) (batch : BatchStatus) :
  truthy (mineruApiKey config) = true ->
  (forall req, axios req = Fulfilled ok batch) ->
  code ok = VNumber 0 ->
  Z.of_nat (length (extract_result batch)) < 2 ^ 32 ->
  0 <= default 0 offset <= 2 ^ 52 -> default 10 limit <= 2 ^ 52 ->
  0 <= default 0 offset + default 10 limit ->
  (mineru_batch_status config stringify_batch axios
     {| BatchStatusParams.batch_id := id; BatchStatusParams.limit := limit;
        BatchStatusParams.offset := offset;
        BatchStatusParams.format := concise |} trace).1
  = Returned (concise_batch_text batch (default 10 limit) (default 0 offset)).
Proof.
  intros Hkey Hax Hcode HN Ho Hl Hol. unfold mineru_batch_status, mbind, M_bind.
  rewrite (mineruRequest_returns config axios _ _ _ _ ok batch Hkey Hax Hcode).
  simpl. rewrite FormatFacts.formatConciseBatch_lines.
  unfold concise_batch_text. by rewrite FormatFacts.slice_clamped by lia.
Qed.

Lemma mineru_batch_status_page_witness :
  truthy (mineruApiKey sample_config) = true
  /\ Z.of_nat (length (extract_result sample_batch_25)) < 2 ^ 32
  /\ 0 <= default 0 (@None Z) <= 2 ^ 52 /\ default 10 (@None Z) <= 2 ^ 52
  /\ 0 <= default 0 (@None Z) + default 10 (@None Z)
  /\ (mineru_batch_status sample_config (fun _ => "") (succeeds sample_batch_25)
        {| BatchStatusParams.batch_id := "b25"; BatchStatusParams.limit := None;
           BatchStatusParams.offset := None;
           BatchStatusParams.format := concise |} []).1
     = Returned (concise_batch_text sample_batch_25 10 0).
Proof.
  split; [reflexivity|]. split; [vm_compute; reflexivity|].
  split; [simpl; lia|]. split; [simpl; lia|]. split; [simpl; lia|].
  apply (mineru_batch_status_page sample_config (fun _ => "")
           (succeeds sample_batch_25) "b25" None None []
           {| code := VNumber 0; msg := VString "ok" |} sample_batch_25);
    [reflexivity|reflexivity|reflexivity|vm_compute; reflexivity
    |simpl; lia|simpl; lia|simpl; lia].
Defined.

Lemma truthy_false (s : string) : truthy s = false -> s = "".
Proof.
  unfold truthy. destruct (String.eqb_spec s ""); [done|discriminate].
Qed.

Lemma mineruRequest_trace_bound (config : Config) {T} (axios : Axios T)
    (endpoint : string) (method : Method) (data : option Json) (trace : list Step) :
  (length (requests (mineruRequest config axios endpoint method data trace).2)
   <= S (length (requests trace)))%nat
  /\ invocations (mineruRequest config axios endpoint method data trace).2
     = S (invocations trace).
Proof.
  destruct (truthy (mineruApiKey config)) eqn:Hkey.
  - rewrite ClientFacts.mineruRequest_sends by done.
    rewrite !requests_app, !invocations_app, !length_app.
    unfold invocations. simpl. lia.
  - rewrite ClientFacts.mineruRequest_without_key by by apply truthy_false.
    simpl. rewrite requests_app, invocations_app, length_app.
    unfold invocations. simpl. lia.
Qed.

Lemma bind_mret_trace {A B} (m : M A) (f : A -> B) (trace : list Step) :
  ((a ← m; mret (f a)) trace).2 = (m trace).2.
Proof. unfold mbind, M_bind. by destruct (m trace) as [[a|e] trace']. Qed.

(** X14: no tool handler retries or fans out: whatever the configuration,
    the parameters and the behaviour of the remote service, one call of a
    handler enters [mineruRequest] at most once and hands at most one
    request to [axios]. *)
Theorem handlers_single_request (config : Config)
    (stringify_status : TaskStatus -> string)
    (stringify_batch : BatchStatus -> string) (trace : list Step) :
  (forall axios params,
      let trace' := (mineru_parse config axios params trace).2 in
      (length (requests trace') <= S (length (requests trace)))%nat
      /\ (invocations trace' <= S (invocations trace))%nat)
  /\ (forall axios params,
        let trace' := (mineru_status config stringify_status axios params trace).2 in
        (length (requests trace') <= S (length (requests trace)))%nat
        /\ (invocations trace' <= S (invocations trace))%nat)
  /\ (forall axios params,
        let trace' := (mineru_batch config axios params trace).2 in
        (length (requests trace') <= S (length (requests trace)))%nat
        /\ (invocations trace' <= S (invocations trace))%nat)
  /\ (forall axios params,
        let trace' :=
          (mineru_batch_status config stringify_batch axios params trace).2 in
        (length (requests trace') <= S (length (requests trace)))%nat
        /\ (invocations trace' <= S (invocations trace))%nat).
Proof.
  split; [|split; [|split]]; intros axios params; simpl.
  - unfold mineru_parse. rewrite bind_mret_trace.
    edestruct (mineruRequest_trace_bound config axios) as [H1 H2].
    split; [exact H1|rewrite H2; lia].
  - unfold mineru_status. rewrite bind_mret_trace.
    edestruct (mineruRequest_trace_bound config axios) as [H1 H2].
    split; [exact H1|rewrite H2; lia].
  - unfold mineru_batch.
    destruct (200 <? Z.of_nat (length (BatchParams.urls params))).
    + simpl. lia.
    + rewrite bind_mret_trace.
      edestruct (mineruRequest_trace_bound config axios) as [H1 H2].
      split; [exact H1|rewrite H2; lia].
  - unfold mineru_batch_status. rewrite bind_mret_trace.
    edestruct (mineruRequest_trace_bound config axios) as [H1 H2].
    split; [exact H1|rewrite H2; lia].
Qed.

Lemma elem_of_optional (cond : bool) (k k' : string) (v v' : Json) :
  (k', v') ∈ (if cond then [(k, v)] else []) <-> cond = true /\ k' = k /\ v' = v.
Proof.
  destruct cond.
  - rewrite list_elem_of_singleton. naive_solver.
  - rewrite elem_of_nil. naive_solver.
Qed.

Lemma elem_of_flag (o : option bool) (k k' : string) (v' : Json) :
  (k', v') ∈ (match o with Some b => [(k, JBool b)] | None => [] end)
  <-> exists b, o = Some b /\ k' = k /\ v' = JBool b.
Proof.
  destruct o as [b|].
  - rewrite list_elem_of_singleton. naive_solver.
  - rewrite elem_of_nil. naive_solver.
Qed.

Lemma truthy_opt_Some (o : option string) (s : string) :
  truthy_opt o = true /\ default "" o = s <-> o = Some s /\ s <> "".
Proof.
  destruct o as [s'|]; simpl.
  - unfold truthy. destruct (String.eqb_spec s' ""); naive_solver.
  - naive_solver.
Qed.

(** X15: [mineru_parse] submits one POST to [/extract/task] whose body
    holds the URL and the model version, and an optional setting exactly
    when it was given: [is_ocr] is sent for [ocr: false] as well as for
    [ocr: true], while an empty [pages] string is left out; on success
    the handler reports the task id. *)
Theorem mineru_parse_request (config : Config) (axios : Axios TaskResponse.t)
    (params : ParseParams.t) (trace : list Step)
    (ok : Envelope) (payload : TaskResponse.t) :
  truthy (mineruApiKey config) = true ->
  (forall req, axios req = Fulfilled ok payload) ->
  code ok = VNumber 0 ->
  exists props : list (string * Json),
    mineru_parse config axios params trace
    = (Returned ("Task created: " +:+ TaskResponse.task_id payload +:+ nl
                 +:+ "Use mineru_status to check progress."),
       trace ++ [Invoked "/extract/task" POST (Some (JObject props));
                 Sent {| method := POST;
                         url := baseUrl config +:+ "/extract/task";
                         headers := [("Content-Type", "application/json");
                                     ("Authorization",
                                      "Bearer " +:+ mineruApiKey config)];
                         data := Some (JObject props) |}])
    /\ ("url", JString (ParseParams.url params)) ∈ props
    /\ ("model_version",
        JString (match ParseParams.model params with
                 | Some m => model_text m
                 | None => defaultModel config
                 end)) ∈ props
    /\ (forall b, ("is_ocr", JBool b) ∈ props <-> ParseParams.ocr params = Some b)
    /\ (forall r, ("page_ranges", JString r) ∈ props
                  <-> ParseParams.pages params = Some r /\ r <> "").
Proof.
  intros Hkey Hax Hcode. unfold mineru_parse.
  rewrite !assign_if_app, !assign_flag_app.
  eexists. split; [|split; [|split; [|split]]].
  - unfold mbind, M_bind.
    rewrite (mineruRequest_returns config axios _ _ _ _ ok payload Hkey Hax Hcode).
    reflexivity.
  - rewrite !elem_of_app, !elem_of_cons. naive_solver.
  - rewrite !elem_of_app, !elem_of_cons. naive_solver.
  - intros b.
    rewrite !elem_of_app, !elem_of_cons, !elem_of_optional, !elem_of_flag,
      elem_of_nil.
    naive_solver.
  - intros r.
    rewrite !elem_of_app, !elem_of_cons, !elem_of_optional, !elem_of_flag,
      elem_of_nil.
    rewrite <- truthy_opt_Some. naive_solver.
Qed.

Lemma mineru_parse_request_witness :
  truthy (mineruApiKey sample_config) = true
  /\ exists props : list (string * Json),
       (mineru_parse sample_config (succeeds {| TaskResponse.task_id := "t1" |})
          (parse_of "https://example.com/a.pdf" (Some false)) []).1
       = Returned ("Task created: t1" +:+ nl
                   +:+ "Use mineru_status to check progress.")
       /\ ("is_ocr", JBool false) ∈ props.
Proof.
  split; [reflexivity|].
  destruct (mineru_parse_request sample_config
              (succeeds {| TaskResponse.task_id := "t1" |})
              (parse_of "https://example.com/a.pdf" (Some false)) []
              {| code := VNumber 0; msg := VString "ok" |}
              {| TaskResponse.task_id := "t1" |})
    as (props & Hrun & _ & _ & Hocr & _); [reflexivity|reflexivity|reflexivity|].
  exists props. split; [by rewrite Hrun|]. by apply Hocr.
Defined.

Lemma env_or_truthy (env : gmap string string) (name fallback : string) :
  truthy fallback = true -> truthy (env_or env name fallback) = true.
Proof.
  intros Hf. unfold env_or. destruct (env !! name) as [v|]; [|done].
  by destruct (truthy v) eqn:Hv.
Qed.

(** X16: started in stdio mode without [MINERU_API_KEY] (unset or empty),
    the server is built with an empty key, so every call of
    [mineruRequest] throws the missing-key error without handing a
    request to [axios]. *)
Theorem main_without_key (env : gmap string string) {T} (axios : Axios T)
    (endpoint : string) (method : Method) (data : option Json) (trace : list Step) :
  env !! "MINERU_API_KEY" = None \/ env !! "MINERU_API_KEY" = Some "" ->
  (mineruRequest (main_config env) axios endpoint method data trace).1
  = Thrown (Error "MINERU_API_KEY not set. Add it to your environment.")
  /\ requests (mineruRequest (main_config env) axios endpoint method data trace).2
     = requests trace.
Proof.
  intros Henv.
  assert (mineruApiKey (main_config env) = "") as Hkey.
  { unfold main_config, env_or. simpl. by destruct Henv as [-> | ->]. }
  rewrite ClientFacts.mineruRequest_without_key by done.
  split; [done|]. apply ClientFacts.requests_invoked.
Qed.

Lemma main_without_key_witness :
  (∅ : gmap string string) !! "MINERU_API_KEY" = None
  /\ (mineruRequest (main_config ∅) (@unreachable unit) "/extract/task" POST None []).1
     = Thrown (Error "MINERU_API_KEY not set. Add it to your environment.").
Proof.
  split; [reflexivity|].
  apply (main_without_key ∅ (@unreachable unit) "/extract/task" POST None []).
  left. reflexivity.
Defined.

(** X17: requests never go to an empty base URL or name an empty default
    model: [createServer] falls back to ["https://mineru.net/api/v4"] and
    ["pipeline"] for empty settings, and so does [main] for unset or empty
    environment variables; a non-empty [MINERU_DEFAULT_MODEL] is used as
    it is. *)
Theorem config_defaults :
  (forall config : Config,
      truthy (baseUrl config) = true /\ truthy (defaultModel config) = true
      /\ (mineruBaseUrl config = "" -> baseUrl config = "https://mineru.net/api/v4")
      /\ (mineruDefaultModel config = "" -> defaultModel config = "pipeline"))
  /\ (forall env : gmap string string,
        (env !! "MINERU_BASE_URL" = None \/ env !! "MINERU_BASE_URL" = Some "" ->
         baseUrl (main_config env) = "https://mineru.net/api/v4")
        /\ (env !! "MINERU_DEFAULT_MODEL" = None
            \/ env !! "MINERU_DEFAULT_MODEL" = Some "" ->
            defaultModel (main_config env) = "pipeline")
        /\ (forall v, env !! "MINERU_DEFAULT_MODEL" = Some v -> v <> "" ->
                      defaultModel (main_config env) = v)).
Proof.
  split.
  - intros config. unfold baseUrl, defaultModel. repeat split.
    + by destruct (truthy (mineruBaseUrl config)) eqn:Hb.
    + by destruct (truthy (mineruDefaultModel config)) eqn:Hm.
    + by intros ->.
    + by intros ->.
  - intros env. unfold baseUrl, defaultModel, main_config, env_or. simpl.
    repeat split.
    + by intros [-> | ->].
    + by intros [-> | ->].
    + intros v -> Hv.
      assert (truthy v = true) as Ht.
      { unfold truthy. by destruct (String.eqb_spec v ""). }
      by rewrite Ht, Ht.
Qed.

Lemma config_defaults_witness :
  baseUrl sample_config = "https://mineru.net/api/v4"
  /\ defaultModel sample_config = "pipeline".
Proof.
  destruct config_defaults as [Hconfig _].
  destruct (Hconfig sample_config) as (_ & _ & Hbase & Hmodel).
  split; [apply Hbase|apply Hmodel]; reflexivity.
Defined.

End ClientMore.

(* ===================================================================== *)
(** ** Further properties of the routes *)
(* ===================================================================== *)

Module ServerMore.
Import Js Server.

Section Routes.
Context `{Sdk}.

Lemma lookup_session_known (transports : gmap string nat) (s : string) (h : nat) :
  transports !! s = Some h -> s <> "" ->
  lookup_session transports (Some s) = Own h.
Proof.
  intros Hs Hne. unfold lookup_session, get. simpl.
  unfold truthy. destruct (String.eqb_spec s ""); [done|]. simpl. by rewrite Hs.
Qed.

Lemma lookup_session_unknown (transports : gmap string nat) (s : string) :
  transports !! s = None -> inherited s = false ->
  lookup_session transports (Some s) = Undefined.
Proof.
  intros Hs Hown. unfold lookup_session, get. simpl.
  destruct (truthy s); [|done]. by rewrite Hs, Hown.
Qed.

Lemma lookup_session_own (transports : gmap string nat) (sessionId : option string)
    (h : nat) :
  lookup_session transports sessionId = Own h ->
  exists s, sessionId = Some s /\ transports !! s = Some h.
Proof.
  unfold lookup_session, get. destruct sessionId as [s|]; simpl; [|done].
  destruct (truthy s); [|done].
  destruct (transports !! s) as [h'|] eqn:Hs.
  - intros [= ->]. by exists s.
  - by destruct (inherited s).
Qed.

(** X18: a request whose session id is in no session and is not the name
    of a member of [Object.prototype] is answered 400 by all three routes,
    whatever its body, an initialize request included; so is a GET or a
    DELETE without session id, and a POST without session id that is not
    an initialize request. Nothing is created, changed or forwarded. *)
Theorem route_rejects_unregistered (g : State) (req : Request) :
  (exists s, sessionId req = Some s /\ s <> "" /\ transports g !! s = None
             /\ inherited s = false)
  \/ ((sessionId req = None \/ sessionId req = Some "")
      /\ (verb req = POST -> isInitializeRequest (body req) = false)) ->
  route g req
  = (g, match verb req with POST => BadRequestJson | _ => BadRequestText end).
Proof.
  intros Hreq. unfold route, post_mcp, get_mcp, delete_mcp.
  destruct Hreq as [(s & Hs & Hne & Hnone & Hown) | [Hs Hkind]].
  - rewrite Hs, (lookup_session_unknown _ s Hnone Hown). simpl.
    unfold truthy. destruct (String.eqb_spec s ""); [done|]. simpl.
    by destruct (verb req).
  - assert (lookup_session (transports g) (sessionId req) = Undefined) as ->.
    { by destruct Hs as [-> | ->]. }
    destruct (verb req); [|done..].
    rewrite Hkind by done. by rewrite andb_false_r.
Qed.

(** X19: a request that carries the id of a registered session is handed
    to that session's transport by all three routes, with the parsed body
    for a POST and without it for a GET or a DELETE; no transport is
    created, even when the body is an initialize request. *)
Theorem route_known_session (g : State) (req : Request) (s : string) (h : nat) :
  sessionId req = Some s -> s <> "" -> transports g !! s = Some h ->
  route g req
  = forward g h req (match verb req with POST => Some (body req) | _ => None end)
  /\ next (route g req).1 = next g
  /\ forwarded (route g req).1 = S (forwarded g)
  /\ exists reply, (route g req).2 = Handled h reply.
Proof.
  intros Hs Hne Hreg.
  assert (route g req
          = forward g h req
              (match verb req with POST => Some (body req) | _ => None end))
    as ->.
  { unfold route, post_mcp, get_mcp, delete_mcp.
    rewrite Hs, (lookup_session_known _ s h Hreg Hne). by destruct (verb req). }
  split; [done|]. unfold forward.
  destruct (handleRequest _ _ _ _ _) as [[events t'] reply]. simpl.
  repeat split. by exists reply.
Qed.

Lemma fire_allocated (h n : nat) (events : list Event) (transports : gmap string nat) :
  (h < n)%nat ->
  (forall s h', transports !! s = Some h' -> (h' < n)%nat) ->
  forall s h', fold_left (fire h) events transports !! s = Some h' -> (h' < n)%nat.
Proof.
  intros Hh. revert transports.
  induction events as [|e events IH]; intros transports Hinv; [done|].
  simpl. apply IH. intros s h'. destruct e as [id|sid]; simpl.
  - unfold onsessioninitialized, set.
    destruct (String.eqb id "__proto__"); [apply Hinv|].
    rewrite lookup_insert. case_decide; [by intros [= <-]|apply Hinv].
  - unfold onclose, remove. destruct (truthy_opt sid); [|apply Hinv].
    rewrite lookup_delete. case_decide; [done|apply Hinv].
Qed.

Lemma forward_allocated (g : State) (h : nat) (req : Request) (pb : option Body) (n : nat) :
  (h < n)%nat -> (next g <= n)%nat ->
  (forall s h', transports g !! s = Some h' -> (h' < n)%nat) ->
  forall s h', transports (forward g h req pb).1 !! s = Some h' -> (h' < n)%nat.
Proof.
  intros Hh Hn Hinv. unfold forward.
  destruct (handleRequest _ _ _ _ _) as [[events t'] reply]. simpl.
  by apply fire_allocated.
Qed.

Lemma forward_next (g : State) (h : nat) (req : Request) (pb : option Body) :
  next (forward g h req pb).1 = next g.
Proof.
  unfold forward. by destruct (handleRequest _ _ _ _ _) as [[events t'] reply].
Qed.

Lemma route_allocated (g : State) (req : Request) :
  (forall s h, transports g !! s = Some h -> (h < next g)%nat) ->
  (forall s h, transports (route g req).1 !! s = Some h ->
               (h < next (route g req).1)%nat)
  /\ (next g <= next (route g req).1)%nat.
Proof.
  intros Hinv. unfold route, post_mcp, get_mcp, delete_mcp.
  destruct (verb req);
    destruct (lookup_session (transports g) (sessionId req)) as [h|k|] eqn:Hlook;
    try (split; [exact Hinv|done]);
    try (apply lookup_session_own in Hlook as (s0 & _ & Hreg);
         rewrite forward_next; split; [|done];
         apply forward_allocated; [by eapply Hinv|done|exact Hinv]).
  destruct (negb (truthy_opt (sessionId req)) && isInitializeRequest (body req));
    [|by split].
  rewrite forward_next. simpl. split; [|lia].
  apply forward_allocated; simpl; [lia|lia|].
  intros s h Hs. specialize (Hinv s h Hs). lia.
Qed.

Lemma serve_allocated (reqs : list Request) (g : State) :
  (forall s h, transports g !! s = Some h -> (h < next g)%nat) ->
  forall s h, transports (serve g reqs) !! s = Some h ->
              (h < next (serve g reqs))%nat.
Proof.
  revert g. induction reqs as [|req reqs IH]; intros g Hinv; [exact Hinv|].
  simpl. apply IH. by apply route_allocated.
Qed.

(** X20: the session map only ever refers to transports that the
    initialize branch created: after any sequence of requests served from
    the start, with any behaviour of the SDK, every transport registered
    in the map is one of the [next] transports created so far. *)
Theorem registered_transports_created (reqs : list Request) (s : string) (h : nat) :
  transports (serve initial reqs) !! s = Some h ->
  (h < next (serve initial reqs))%nat.
Proof. apply serve_allocated. intros s' h'. simpl. by rewrite lookup_empty. Qed.



End Routes.

Lemma route_rejects_unregistered_witness :
  inherited "unknown-session" = false
  /\ route initial (Samples.initialize_request (Some "unknown-session"))
     = (initial, BadRequestJson)
  /\ route initial (Samples.call_request DELETE None) = (initial, BadRequestText).
Proof.
  split; [reflexivity|]. split.
  - apply (route_rejects_unregistered initial
             (Samples.initialize_request (Some "unknown-session"))).
    left. exists "unknown-session". repeat split; done.
  - apply (route_rejects_unregistered initial (Samples.call_request DELETE None)).
    right. split; [by left|discriminate].
Defined.

Lemma route_known_session_witness :
  transports (serve initial [Samples.initialize_request None]) !! "session-0"
  = Some 0%nat
  /\ next (route (serve initial [Samples.initialize_request None])
                 (Samples.initialize_request (Some "session-0"))).1
     = 1%nat.
Proof.
  split; [reflexivity|].
  destruct (route_known_session (serve initial [Samples.initialize_request None])
              (Samples.initialize_request (Some "session-0")) "session-0" 0%nat)
    as (_ & Hnext & _); [reflexivity|discriminate|reflexivity|].
  exact Hnext.
Defined.

Lemma registered_transports_created_witness :
  transports (serve initial [Samples.initialize_request None]) !! "session-0"
  = Some 0%nat
  /\ (0 < next (serve initial [Samples.initialize_request None]))%nat.
Proof.
  split; [reflexivity|].
  apply (registered_transports_created [Samples.initialize_request None]
           "session-0" 0%nat). reflexivity.
Defined.



End ServerMore.
